(** * The render life cycle of the SpinBox custom element (progression 006/007)

    A shallow embedding of [code/progression/006/SpinBox.js],
    [code/progression/006/ShadowHelperMixin.js] and
    [code/progression/007/ShadowHelperMixin.js], on the page [index.html]
    listed with them in the chapter.

    The element is a JavaScript object mutated in place; here every method is
    a function in a state-and-exception monad over the host object.  The DOM
    calls a method performs and the lines it writes with [console.log] are
    added to a trace kept in the state, so that "how many times" questions
    are questions about that trace.  An exception leaves the object as the
    statements before it left it. *)

From Stdlib Require Import ZArith List String Ascii Bool Lia DecimalString DecimalPos.
Import ListNotations.

Local Open Scope string_scope.
Local Open Scope Z_scope.

(** ** JavaScript values reaching the [value] property

    [_value] holds a JavaScript number: the constructor stores [0],
    [attributeChangedCallback] stores the result of [parseInt], the button
    listeners store the result of [++] and [--].  Numbers are modelled as
    mathematical integers together with [NaN]; the rounding of IEEE doubles
    beyond 2^53 is outside the model. *)

Inductive jsval : Type :=
  | JNum (z : Z)
  | JNaN.

(** [a === b] on numbers: [NaN] is equal to nothing, itself included. *)
Definition strict_equal (a b : jsval) : bool :=
  match a, b with
  | JNum x, JNum y => x =? y
  | _, _ => false
  end.

(** [a !== b]. *)
Definition strict_not_equal (a b : jsval) : bool := negb (strict_equal a b).

(** [String(v)], what assigning a number to [input.value] writes. *)
Definition ToString (v : jsval) : string :=
  match v with
  | JNum z => NilZero.string_of_int (Z.to_int z)
  | JNaN => "NaN"
  end.

(** [v + 1] and [v - 1] as computed by [this.value++] and [this.value--]. *)
Definition js_add (v : jsval) (d : Z) : jsval :=
  match v with
  | JNum z => JNum (z + d)
  | JNaN => JNaN
  end.

(** ** [parseInt(string)] with no radix argument (ECMAScript 19.2.5)

    Strings are sequences of code units below 256. *)

Definition is_white_space (c : ascii) : bool :=
  let n := nat_of_ascii c in
  (Nat.eqb n 9 || Nat.eqb n 10 || Nat.eqb n 11 || Nat.eqb n 12
   || Nat.eqb n 13 || Nat.eqb n 32 || Nat.eqb n 160)%bool.

Fixpoint trim_start (s : string) : string :=
  match s with
  | String c r => if is_white_space c then trim_start r else s
  | EmptyString => s
  end.

Definition digit_value (c : ascii) : option Z :=
  let n := Z.of_nat (nat_of_ascii c) in
  if (48 <=? n) && (n <=? 57) then Some (n - 48)
  else if (97 <=? n) && (n <=? 122) then Some (n - 87)
  else if (65 <=? n) && (n <=? 90) then Some (n - 55)
  else None.

(** The longest prefix of radix-[R] digits, as a number; [acc] is [None]
    until a first digit has been read. *)
Fixpoint parse_digits (R : Z) (s : string) (acc : option Z) : option Z :=
  match s with
  | String c r =>
      match digit_value c with
      | Some d =>
          if d <? R
          then parse_digits R r (Some (match acc with Some a => a | None => 0 end * R + d))
          else acc
      | None => acc
      end
  | EmptyString => acc
  end.

Definition strip_sign (s : string) : Z * string :=
  match s with
  | String "-" r => (-1, r)
  | String "+" r => (1, r)
  | _ => (1, s)
  end.

Definition strip_prefix (s : string) : Z * string :=
  match s with
  | String "0" (String "x" r) => (16, r)
  | String "0" (String "X" r) => (16, r)
  | _ => (10, s)
  end.

Definition parseInt (input : string) : jsval :=
  let (sign, s1) := strip_sign (trim_start input) in
  let (R, s2) := strip_prefix s1 in
  match parse_digits R s2 None with
  | Some n => JNum (sign * n)
  | None => JNaN
  end.

(** The third argument of [attributeChangedCallback] is a string, or [null]
    when the attribute was removed; [parseInt(null)] parses the text "null". *)
Definition attribute_text (newValue : option string) : string :=
  match newValue with
  | Some s => s
  | None => "null"
  end.

(** ** The DOM fragment the element deals with *)

(** The three arrow functions [componentFirstRender] registers. *)
Inductive Listener : Type :=
  | input_listener
  | upButton_listener
  | downButton_listener.

Record Node : Type := mkNode {
  n_tag : string;
  n_id : string;
  n_value : string;
  n_listeners : list (string * Listener)
}.

(** The children of a template's content, or of a shadow root. *)
Definition Fragment : Type := list Node.

(** The [<template>] elements of the page, by id. *)
Definition Document : Type := list (string * Fragment).

Fixpoint document_getElementById (doc : Document) (id : string) : option Fragment :=
  match doc with
  | (i, f) :: rest => if String.eqb i id then Some f else document_getElementById rest id
  | [] => None
  end.

Fixpoint getElementById (root : Fragment) (id : string) : option Node :=
  match root with
  | n :: rest => if String.eqb (n_id n) id then Some n else getElementById rest id
  | [] => None
  end.

(** Replaces the node [getElementById] finds with [f] of it. *)
Fixpoint update_element (root : Fragment) (id : string) (f : Node -> Node) : Fragment :=
  match root with
  | n :: rest =>
      if String.eqb (n_id n) id then f n :: rest else n :: update_element rest id f
  | [] => []
  end.

(** A node with another text, and a node with one more listener. *)
Definition with_text (text : string) (n : Node) : Node :=
  mkNode (n_tag n) (n_id n) text (n_listeners n).

Definition with_listener (type : string) (l : Listener) (n : Node) : Node :=
  mkNode (n_tag n) (n_id n) (n_value n) (n_listeners n ++ [(type, l)])%list.

(** [document.importNode(content, true)]: a deep copy; listeners are not copied. *)
Definition importNode (content : Fragment) : Fragment :=
  map (fun n => mkNode (n_tag n) (n_id n) (n_value n) []) content.

(** The page of the chapter: [index.html] with its [spinBoxTemplate]. *)
Definition spinBoxTemplate : Fragment :=
  [ mkNode "style" "" "" [];
    mkNode "input" "input" "" [];
    mkNode "button" "upButton" "" [];
    mkNode "button" "downButton" "" [] ].

Definition index_html : Document := [ ("spinBoxTemplate", spinBoxTemplate) ].

(** The page supplies a [spinBoxTemplate] holding the three elements the
    class looks up. *)
Definition has_element (c : Fragment) (id : string) : bool :=
  match getElementById c id with Some _ => true | None => false end.

Definition supplies_template (doc : Document) : bool :=
  match document_getElementById doc "spinBoxTemplate" with
  | Some c => has_element c "input" && has_element c "upButton" && has_element c "downButton"
  | None => false
  end.

(** ** Host objects, traces and the monad of methods *)

Inductive error : Type :=
  | NotSupportedError                 (* attachShadow on a host that has a shadow root *)
  | TypeError (expression : string)   (* a property read or written on null/undefined *)
  | ReferenceError (name : string).   (* an identifier that is not in scope *)

Inductive effect : Type :=
  | Log (message : string)                     (* console.log *)
  | Invoke (method : string)                   (* a method of the element was entered *)
  | AttachShadow                               (* this.attachShadow succeeded *)
  | AppendChild                                (* root.appendChild(clone) *)
  | AddEventListener (id type : string)        (* element.addEventListener *)
  | WriteValue (id text : string)              (* element.value = text *)
  | Uncaught (e : error).                      (* an exception reported by the host *)

(** [this]: an [HTMLElement] extended with the fields [X] of a subclass.
    The trace is kept newest first. *)
Record Host (X : Type) : Type := mkHost {
  shadowRoot : option Fragment;
  effects : list effect;
  fields : X
}.
Arguments mkHost {X}.
Arguments shadowRoot {X}.
Arguments effects {X}.
Arguments fields {X}.

Inductive completion (A : Type) : Type :=
  | Normal (a : A)
  | Throw (e : error).
Arguments Normal {A}.
Arguments Throw {A}.

Definition M (X A : Type) : Type := Host X -> completion A * Host X.

Definition ret {X A} (a : A) : M X A := fun h => (Normal a, h).

Definition throw {X A} (e : error) : M X A := fun h => (Throw e, h).

Definition bind {X A B} (m : M X A) (k : A -> M X B) : M X B :=
  fun h =>
    match m h with
    | (Normal a, h') => k a h'
    | (Throw e, h') => (Throw e, h')
    end.

Notation "x <- m ;; k" := (bind m (fun x => k))
  (at level 61, m at next level, right associativity).
Notation "m ;; k" := (bind m (fun _ => k))
  (at level 61, right associativity).

Definition this {X} : M X (Host X) := fun h => (Normal h, h).

Definition emit {X} (e : effect) : M X unit :=
  fun h => (Normal tt, mkHost (shadowRoot h) (e :: effects h) (fields h)).

Definition console_log {X} (message : string) : M X unit := emit (Log message).

(** A method called [n] times in a row: what each call returned or threw, and
    the host at the end. *)
Fixpoint call_times {X A} (m : M X A) (n : nat) (h : Host X) : list (completion A) * Host X :=
  match n with
  | O => ([], h)
  | S k =>
      let (r, h1) := m h in
      let (rs, h2) := call_times m k h1 in
      (r :: rs, h2)
  end.

Definition count_effects (p : effect -> bool) (l : list effect) : nat :=
  List.length (filter p l).

Definition is_AttachShadow (e : effect) : bool :=
  match e with AttachShadow => true | _ => false end.

Definition is_WriteValue (e : effect) : bool :=
  match e with WriteValue _ _ => true | _ => false end.

Definition is_AddEventListener (e : effect) : bool :=
  match e with AddEventListener _ _ => true | _ => false end.

Definition is_Invoke (m : string) (e : effect) : bool :=
  match e with Invoke m' => String.eqb m m' | _ => false end.

(** ** What the base class [HTMLElement] provides *)

Definition attachShadow {X} : M X unit :=
  fun h =>
    match shadowRoot h with
    | Some _ => (Throw NotSupportedError, h)
    | None => (Normal tt, mkHost (Some []) (AttachShadow :: effects h) (fields h))
    end.

(** [root.appendChild(clone)] on the shadow root of [this]. *)
Definition appendChild {X} (clone : Fragment) : M X unit :=
  fun h =>
    match shadowRoot h with
    | Some root => (Normal tt, mkHost (Some (root ++ clone)%list) (AppendChild :: effects h) (fields h))
    | None => (Throw (TypeError "root"), h)
    end.

(** ** Property lookup on [this]

    The mixins read one property of the host, a template element or nothing.
    A class supplies it under a key, a public name or a symbol. *)

Inductive PropertyKey : Type :=
  | PName (name : string)
  | PSymbol (description : string).

Definition PropertyKey_eqb (a b : PropertyKey) : bool :=
  match a, b with
  | PName x, PName y => String.eqb x y
  | PSymbol x, PSymbol y => String.eqb x y
  | _, _ => false
  end.

(** The getters of a class: for a key, a function of [this] returning the
    content of a template element, or [None] for [null]. A key the class does
    not define reads as [undefined]. *)
Definition ClassTable (X : Type) : Type :=
  PropertyKey -> option (Host X -> option Fragment).

(** What [this[k]] reads on a host of the class. *)
Definition template_of {X} (cls : ClassTable X) (k : PropertyKey) (h : Host X)
    : option Fragment :=
  match cls k with
  | Some getter => getter h
  | None => None
  end.

Definition get_property {X} (cls : ClassTable X) (k : PropertyKey) : M X (option Fragment) :=
  fun h => (Normal (template_of cls k h), h).

(** [templateElement.content]. *)
Definition content {X} (templateElement : option Fragment) : M X Fragment :=
  match templateElement with
  | Some c => ret c
  | None => throw (TypeError "templateElement")
  end.

(** ** [ShadowHelperMixin], progression 006 *)

Module Mixin006.

Definition renderHelper {X} (cls : ClassTable X) : M X bool :=
  h <- this ;;
  let firstRender := match shadowRoot h with Some _ => false | None => true end in
  if firstRender then
    attachShadow ;;
    templateElement <- get_property cls (PName "template") ;;
    c <- content templateElement ;;
    appendChild (importNode c) ;;
    ret firstRender
  else
    ret firstRender.

End Mixin006.

(** ** [ShadowHelperMixin], progression 007 *)

Module Mixin007.

(** [export const template = Symbol("template")]. *)
Definition template : PropertyKey := PSymbol "template".

Definition renderHelper {X} (cls : ClassTable X) : M X bool :=
  h <- this ;;
  let firstRender := match shadowRoot h with Some _ => false | None => true end in
  if firstRender then
    attachShadow ;;
    templateElement <- get_property cls template ;;
    c <- content templateElement ;;
    appendChild (importNode c) ;;
    ret firstRender
  else
    ret firstRender.

End Mixin007.

(** ** Elements of the shadow tree, reached through [this.shadowRoot] *)

Section ShadowTree.
Context {X : Type}.

(** [this.shadowRoot.…]: a property read on [null] when there is no root. *)
Definition this_shadowRoot : M X Fragment :=
  fun h =>
    match shadowRoot h with
    | Some root => (Normal root, h)
    | None => (Throw (TypeError "this.shadowRoot"), h)
    end.

Definition replace_root (root : Fragment) : M X unit :=
  fun h => (Normal tt, mkHost (Some root) (effects h) (fields h)).

(** [this.shadowRoot.getElementById(id).addEventListener(type, l)]. *)
Definition addEventListener (id type : string) (l : Listener) : M X unit :=
  root <- this_shadowRoot ;;
  match getElementById root id with
  | Some _ =>
      replace_root (update_element root id (with_listener type l)) ;;
      emit (AddEventListener id type)
  | None => throw (TypeError id)
  end.

(** [this.shadowRoot.getElementById(id).value = text]. *)
Definition write_value (id text : string) : M X unit :=
  root <- this_shadowRoot ;;
  match getElementById root id with
  | Some _ =>
      replace_root (update_element root id (with_text text)) ;;
      emit (WriteValue id text)
  | None => throw (TypeError id)
  end.

(** What the element with the given id displays, if it exists. *)
Definition displayed (id : string) (h : Host X) : option string :=
  match shadowRoot h with
  | Some root => option_map n_value (getElementById root id)
  | None => None
  end.

(** The listeners registered on the element with the given id. *)
Definition listeners_of (id : string) (h : Host X) : list (string * Listener) :=
  match shadowRoot h with
  | Some root =>
      match getElementById root id with
      | Some n => n_listeners n
      | None => []
      end
  | None => []
  end.

(** The host environment reports an exception a callback lets escape. *)
Definition host_call {A} (m : M X A) (h : Host X) : Host X :=
  match m h with
  | (Normal _, h') => h'
  | (Throw e, h') => mkHost (shadowRoot h') (Uncaught e :: effects h') (fields h')
  end.

End ShadowTree.

(** ** [class SpinBox extends ShadowHelperMixin(HTMLElement)], progression 006 *)

Module SpinBox.

Record Fields : Type := mkFields { _value : jsval }.

Definition SpinBox : Type := Host Fields.
Definition Method (A : Type) : Type := M Fields A.

Definition observedAttributes : list string := ["value"].

Section Page.
(** [document], the page the element lives in. *)
Variable document : Document.

(** [get template() { return document.getElementById('spinBoxTemplate'); }] *)
Definition template (h : Host Fields) : option Fragment :=
  document_getElementById document "spinBoxTemplate".

(** The class defines [template] under its public name and nothing under
    any other key the mixins read. *)
Definition class_table : ClassTable Fields :=
  fun k => if PropertyKey_eqb k (PName "template") then Some template else None.

Definition constructor : SpinBox :=
  mkHost None [Log "SpinBox constructor called"] (mkFields (JNum 0)).

(** [get value()]. *)
Definition value (h : SpinBox) : jsval := _value (fields h).

Definition get_value : Method jsval := fun h => (Normal (value h), h).

(** [this._value = value]. *)
Definition store_value (v : jsval) : Method unit :=
  fun h => (Normal tt, mkHost (shadowRoot h) (effects h) (mkFields v)).

Definition componentFirstRender : Method unit :=
  emit (Invoke "componentFirstRender") ;;
  console_log "SpinBox componentFirstRender called" ;;
  addEventListener "input" "input" input_listener ;;
  addEventListener "upButton" "mousedown" upButton_listener ;;
  addEventListener "downButton" "mousedown" downButton_listener.

(** The last statement of [render]:
    [this.shadowRoot.getElementById('input').value = this.value]. *)
Definition project : Method unit :=
  v <- get_value ;;
  write_value "input" (ToString v).

Definition render : Method unit :=
  emit (Invoke "render") ;;
  firstRender <- Mixin006.renderHelper class_table ;;
  (if firstRender : bool then componentFirstRender else ret tt) ;;
  project.

(** [set value(value)]. *)
Definition set_value (v : jsval) : Method unit :=
  h <- this ;;
  if strict_not_equal v (value h) then
    store_value v ;;
    render
  else ret tt.

Definition connectedCallback : Method unit :=
  console_log "SpinBox added to page: connectedCallback" ;;
  render.

Definition disconnectedCallback : Method unit :=
  console_log "SpinBox removed from page: disconnectedCallback".

Definition adoptedCallback : Method unit :=
  console_log "SpinBox moved to new page: adoptedCallback".

Definition attributeChangedCallback
    (name : string) (oldValue newValue : option string) : Method unit :=
  console_log "SpinBox attributes changed: attributeChangedCallback" ;;
  if String.eqb name "value" then set_value (parseInt (attribute_text newValue))
  else ret tt.

(** The bodies of the three arrow functions. The first one reads
    [inputElem]; the constant declared in [componentFirstRender] is named
    [inputElement] and the page defines no global of that name, so the
    right-hand side of the assignment throws before anything is assigned. *)
Definition run_listener (l : Listener) : Method unit :=
  match l with
  | input_listener => throw (ReferenceError "inputElem")
  | upButton_listener => v <- get_value ;; set_value (js_add v 1)
  | downButton_listener => v <- get_value ;; set_value (js_add v (-1))
  end.

(** Event dispatch runs every listener registered for the type; an
    exception in one listener is reported and the next one still runs. *)
Fixpoint run_listeners (ls : list (string * Listener)) (type : string)
    (h : SpinBox) : SpinBox :=
  match ls with
  | (t, l) :: rest =>
      if String.eqb t type
      then run_listeners rest type (host_call (run_listener l) h)
      else run_listeners rest type h
  | [] => h
  end.

Definition dispatchEvent (id type : string) (h : SpinBox) : SpinBox :=
  run_listeners (listeners_of id h) type h.

(** The user types into the display element: the control takes the text
    and an [input] event is fired at it. *)
Definition type_text (text : string) (h : SpinBox) : SpinBox :=
  match shadowRoot h with
  | Some root =>
      dispatchEvent "input" "input"
        (mkHost (Some (update_element root "input" (with_text text)))
           (effects h) (fields h))
  | None => h
  end.

(** ** What the host environment and the user can do to an element *)

Inductive HostEvent : Type :=
  | Connected                  (* the element is inserted into the page *)
  | Disconnected
  | Adopted
  | AttributeChanged (name : string) (oldValue newValue : option string)
  | AssignValue (v : jsval)    (* a script runs [element.value = v] *)
  | CallRender                 (* a script runs [element.render()] *)
  | TextEntered (text : string)
  | MouseDown (id : string).   (* a mouse button goes down on the element [id] *)

Definition step (h : SpinBox) (e : HostEvent) : SpinBox :=
  match e with
  | Connected => host_call connectedCallback h
  | Disconnected => host_call disconnectedCallback h
  | Adopted => host_call adoptedCallback h
  | AttributeChanged name o n =>
      if existsb (String.eqb name) observedAttributes
      then host_call (attributeChangedCallback name o n) h
      else h
  | AssignValue v => host_call (set_value v) h
  | CallRender => host_call render h
  | TextEntered text => type_text text h
  | MouseDown id => dispatchEvent id "mousedown" h
  end.

Definition run (events : list HostEvent) (h : SpinBox) : SpinBox :=
  fold_left step events h.

(** [render()] called [n] times in a row, exceptions reported. *)
Fixpoint render_times (n : nat) (h : SpinBox) : SpinBox :=
  match n with
  | O => h
  | S k => render_times k (host_call render h)
  end.

End Page.

(** Counters read off the trace. *)
Definition subtrees_created (h : SpinBox) : nat :=
  count_effects is_AttachShadow (effects h).

Definition projections (h : SpinBox) : nat :=
  count_effects is_WriteValue (effects h).

Definition renders (h : SpinBox) : nat :=
  count_effects (is_Invoke "render") (effects h).

Definition first_renders (h : SpinBox) : nat :=
  count_effects (is_Invoke "componentFirstRender") (effects h).

Definition wirings (h : SpinBox) : nat :=
  count_effects is_AddEventListener (effects h).

End SpinBox.

Import SpinBox.

(** * Vocabulary of the properties *)

(** What a method may change, as far as the life cycle is concerned: it
    keeps the fields and the shadow root it found, and adds to the counters. *)
Record adds (h h' : SpinBox) (r s f p w : nat) : Prop := mkAdds {
  adds_root : shadowRoot h' <> None;
  adds_fields : fields h' = fields h;
  adds_renders : renders h' = (r + renders h)%nat;
  adds_subtrees : subtrees_created h' = (s + subtrees_created h)%nat;
  adds_first : first_renders h' = (f + first_renders h)%nat;
  adds_projections : (projections h' <= p + projections h)%nat;
  adds_wirings : (wirings h <= wirings h' <= w + wirings h)%nat
}.

(** The life cycle of an element: before its first [render] nothing has
    happened; from then on there is one subtree, and
    [componentFirstRender] has run once if the page has the template, and has
    then registered its three listeners if the template holds the elements. *)
Definition life_cycle (doc : Document) (h : SpinBox) : Prop :=
  match shadowRoot h with
  | None =>
      renders h = 0%nat /\ subtrees_created h = 0%nat
      /\ first_renders h = 0%nat /\ projections h = 0%nat /\ wirings h = 0%nat
  | Some _ =>
      (1 <= renders h)%nat /\ subtrees_created h = 1%nat
      /\ first_renders h
         = match document_getElementById doc "spinBoxTemplate" with
           | Some _ => 1%nat
           | None => 0%nat
           end
      /\ (projections h <= renders h)%nat
      /\ (wirings h <= 3)%nat
      /\ (supplies_template doc = true -> wirings h = 3%nat)
  end.

(** Everything [render] does before its last statement. *)
Definition render_prefix (doc : Document) : Method unit :=
  emit (Invoke "render") ;;
  firstRender <- Mixin006.renderHelper (class_table doc) ;;
  if firstRender : bool then componentFirstRender else ret tt.

(** A 006 host and a 007 host in the same DOM state. *)
Definition same_dom {X6 X7} (h6 : Host X6) (h7 : Host X7) : Prop :=
  shadowRoot h6 = shadowRoot h7 /\ effects h6 = effects h7.

(** The class of the one supplies under the name [template] what the class
    of the other supplies under the symbol, in every DOM state. *)
Definition same_template {X6 X7} (cls6 : ClassTable X6) (cls7 : ClassTable X7)
    (f6 : X6) (f7 : X7) : Prop :=
  forall r e,
    template_of cls6 (PName "template") (mkHost r e f6)
    = template_of cls7 Mixin007.template (mkHost r e f7).

(** A 007 class: the template of the chapter under the symbol, and nothing
    under the public name. *)
Definition symbol_class_table : ClassTable unit :=
  fun k =>
    if PropertyKey_eqb k Mixin007.template
    then Some (fun _ => document_getElementById index_html "spinBoxTemplate")
    else None.

(** * The earlier versions of the element

    Progressions 003, 004 and 005 declare the same class with the same
    constructor, accessors, [attributeChangedCallback] and listeners; they
    differ in [render] and in [connectedCallback].  The members they share
    are stated once, over the [render] of the class. *)

Section Element.
(** [this.render], as the class at hand defines it. *)
Variable render : Method unit.

(** [set value(value)]. *)
Definition set_value_of (v : jsval) : Method unit :=
  h <- this ;;
  if strict_not_equal v (value h) then
    store_value v ;;
    render
  else ret tt.

Definition attributeChangedCallback_of
    (name : string) (oldValue newValue : option string) : Method unit :=
  console_log "SpinBox attributes changed: attributeChangedCallback" ;;
  if String.eqb name "value" then set_value_of (parseInt (attribute_text newValue))
  else ret tt.

(** The three arrow functions; [inputElem] is out of scope in 003, 004 and
    005 as it is in 006. *)
Definition run_listener_of (l : Listener) : Method unit :=
  match l with
  | input_listener => throw (ReferenceError "inputElem")
  | upButton_listener => v <- get_value ;; set_value_of (js_add v 1)
  | downButton_listener => v <- get_value ;; set_value_of (js_add v (-1))
  end.

Fixpoint run_listeners_of (ls : list (string * Listener)) (type : string)
    (h : SpinBox) : SpinBox :=
  match ls with
  | (t, l) :: rest =>
      if String.eqb t type
      then run_listeners_of rest type (host_call (run_listener_of l) h)
      else run_listeners_of rest type h
  | [] => h
  end.

Definition dispatchEvent_of (id type : string) (h : SpinBox) : SpinBox :=
  run_listeners_of (listeners_of id h) type h.

Definition type_text_of (text : string) (h : SpinBox) : SpinBox :=
  match shadowRoot h with
  | Some root =>
      dispatchEvent_of "input" "input"
        (mkHost (Some (update_element root "input" (with_text text)))
           (effects h) (fields h))
  | None => h
  end.

(** [this.connectedCallback], as the class at hand defines it. *)
Variable connectedCallback : Method unit.

Definition step_of (h : SpinBox) (e : HostEvent) : SpinBox :=
  match e with
  | Connected => host_call connectedCallback h
  | Disconnected => host_call disconnectedCallback h
  | Adopted => host_call adoptedCallback h
  | AttributeChanged name o n =>
      if existsb (String.eqb name) observedAttributes
      then host_call (attributeChangedCallback_of name o n) h
      else h
  | AssignValue v => host_call (set_value_of v) h
  | CallRender => host_call render h
  | TextEntered text => type_text_of text h
  | MouseDown id => dispatchEvent_of id "mousedown" h
  end.

Definition run_of (events : list HostEvent) (h : SpinBox) : SpinBox :=
  fold_left step_of events h.

End Element.

(** [document.getElementById('spinBoxTemplate').content] read through the
    local constant [spinBoxTemplate] of 003 and 004. *)
Definition spinBoxTemplate_content (doc : Document) : Method Fragment :=
  match document_getElementById doc "spinBoxTemplate" with
  | Some c => ret c
  | None => throw (TypeError "spinBoxTemplate")
  end.

(** ** Progression 005: [renderHelper] is a method of the class itself *)

Module SpinBox005.
Section Page.
Variable document : Document.

Definition renderHelper : Method bool :=
  h <- this ;;
  let firstRender := match shadowRoot h with Some _ => false | None => true end in
  if firstRender then
    attachShadow ;;
    h1 <- this ;;
    c <- content (template document h1) ;;
    appendChild (importNode c) ;;
    ret firstRender
  else
    ret firstRender.

Definition render : Method unit :=
  emit (Invoke "render") ;;
  firstRender <- renderHelper ;;
  (if firstRender : bool then componentFirstRender else ret tt) ;;
  project.

Definition connectedCallback : Method unit :=
  console_log "SpinBox added to page: connectedCallback" ;;
  render.

Definition run : list HostEvent -> SpinBox -> SpinBox :=
  run_of render connectedCallback.

End Page.
End SpinBox005.

(** ** Progression 004: the first render is written out inside [render] *)

Module SpinBox004.
Section Page.
Variable document : Document.

Definition render : Method unit :=
  emit (Invoke "render") ;;
  h <- this ;;
  let firstRender := match shadowRoot h with Some _ => false | None => true end in
  (if firstRender then
     attachShadow ;;
     c <- spinBoxTemplate_content document ;;
     appendChild (importNode c) ;;
     addEventListener "input" "input" input_listener ;;
     addEventListener "upButton" "mousedown" upButton_listener ;;
     addEventListener "downButton" "mousedown" downButton_listener
   else ret tt) ;;
  project.

Definition connectedCallback : Method unit :=
  console_log "SpinBox added to page: connectedCallback" ;;
  render.

Definition run : list HostEvent -> SpinBox -> SpinBox :=
  run_of render connectedCallback.

End Page.
End SpinBox004.

(** ** Progression 003: the shadow tree is built in [connectedCallback] *)

Module SpinBox003.
Section Page.
Variable document : Document.

(** [render() { this.shadowRoot.getElementById('input').value = this.value; }] *)
Definition render : Method unit :=
  emit (Invoke "render") ;;
  project.

Definition connectedCallback : Method unit :=
  console_log "SpinBox added to page: connectedCallback" ;;
  attachShadow ;;
  c <- spinBoxTemplate_content document ;;
  appendChild (importNode c) ;;
  addEventListener "input" "input" input_listener ;;
  addEventListener "upButton" "mousedown" upButton_listener ;;
  addEventListener "downButton" "mousedown" downButton_listener ;;
  render.

Definition set_value : jsval -> Method unit := set_value_of render.

Definition attributeChangedCallback : string -> option string -> option string -> Method unit :=
  attributeChangedCallback_of render.

Definition run : list HostEvent -> SpinBox -> SpinBox :=
  run_of render connectedCallback.

End Page.
End SpinBox003.

(** * More vocabulary *)


(** A text that, after white space and a sign, does not start with a
    decimal digit. *)
Definition starts_no_number (s : string) : bool :=
  match snd (strip_sign (trim_start s)) with
  | EmptyString => true
  | String c _ =>
      match digit_value c with
      | Some d => 10 <=? d
      | None => true
      end
  end.

(** The shadow tree with the text of the display element wiped out: what is
    left is the elements, their listeners and the other texts. *)
Definition blank (r : Fragment) : Fragment :=
  update_element r "input" (with_text "").

Definition listeners_at (r : Fragment) (id : string) : option (list (string * Listener)) :=
  option_map n_listeners (getElementById r id).

(** The three elements carry the listener [componentFirstRender] gives them,
    and no other. *)
Definition wired_root (r : Fragment) : Prop :=
  listeners_at r "input" = Some [("input", input_listener)]
  /\ listeners_at r "upButton" = Some [("mousedown", upButton_listener)]
  /\ listeners_at r "downButton" = Some [("mousedown", downButton_listener)].

Definition wired (h : SpinBox) : Prop :=
  match shadowRoot h with
  | Some r => wired_root r
  | None => True
  end.


(** Two elements showing the same shadow tree and holding the same value. *)
Definition same_view (a b : SpinBox) : Prop :=
  shadowRoot a = shadowRoot b /\ fields a = fields b.

(** The shadow tree of an element attached to the page of the chapter. *)
Definition attached_tree : Fragment :=
  [ mkNode "style" "" "" [];
    mkNode "input" "input" "0" [("input", input_listener)];
    mkNode "button" "upButton" "" [("mousedown", upButton_listener)];
    mkNode "button" "downButton" "" [("mousedown", downButton_listener)] ].

(** A page whose template holds the display element and the down button but
    no up button. *)
Definition no_upButton_html : Document :=
  [ ("spinBoxTemplate",
     [ mkNode "input" "input" "" []; mkNode "button" "downButton" "" [] ]) ].

(** * Properties *)

(** ** The mixin *)

Section MixinFacts.
Context {X : Type}.
Variable cls : ClassTable X.

Lemma renderHelper006_present (h : Host X) (r : Fragment) :
  shadowRoot h = Some r -> Mixin006.renderHelper cls h = (Normal false, h).
Proof.
  destruct h as [sr e f]; cbn; intros ->. reflexivity.
Qed.

Lemma renderHelper006_absent (h : Host X) :
  shadowRoot h = None ->
  Mixin006.renderHelper cls h =
    let h1 := mkHost (Some []) (AttachShadow :: effects h) (fields h) in
    match template_of cls (PName "template") h1 with
    | Some c =>
        (Normal true,
         mkHost (Some (importNode c)) (AppendChild :: AttachShadow :: effects h) (fields h))
    | None => (Throw (TypeError "templateElement"), h1)
    end.
Proof.
  destruct h as [sr e f]; cbn; intros ->.
  unfold Mixin006.renderHelper, bind, this, attachShadow, get_property.
  cbn.
  destruct (template_of cls (PName "template") _); reflexivity.
Qed.

Lemma renderHelper007_present (h : Host X) (r : Fragment) :
  shadowRoot h = Some r -> Mixin007.renderHelper cls h = (Normal false, h).
Proof.
  destruct h as [sr e f]; cbn; intros ->. reflexivity.
Qed.

Lemma renderHelper007_absent (h : Host X) :
  shadowRoot h = None ->
  Mixin007.renderHelper cls h =
    let h1 := mkHost (Some []) (AttachShadow :: effects h) (fields h) in
    match template_of cls Mixin007.template h1 with
    | Some c =>
        (Normal true,
         mkHost (Some (importNode c)) (AppendChild :: AttachShadow :: effects h) (fields h))
    | None => (Throw (TypeError "templateElement"), h1)
    end.
Proof.
  destruct h as [sr e f]; cbn; intros ->.
  unfold Mixin007.renderHelper, bind, this, attachShadow, get_property.
  cbn.
  destruct (template_of cls Mixin007.template _); reflexivity.
Qed.

(** Whatever way a call ends, the host has a shadow root afterwards. *)
Lemma renderHelper006_root (h : Host X) :
  shadowRoot (snd (Mixin006.renderHelper cls h)) <> None.
Proof.
  destruct (shadowRoot h) as [r|] eqn:Hr.
  - rewrite (renderHelper006_present h r Hr). cbn. congruence.
  - rewrite (renderHelper006_absent h Hr). cbv zeta.
    destruct (template_of _ _ _); cbn; congruence.
Qed.

Lemma renderHelper006_fields (h : Host X) :
  fields (snd (Mixin006.renderHelper cls h)) = fields h.
Proof.
  destruct (shadowRoot h) as [r|] eqn:Hr.
  - rewrite (renderHelper006_present h r Hr). reflexivity.
  - rewrite (renderHelper006_absent h Hr). cbv zeta.
    destruct (template_of _ _ _); reflexivity.
Qed.

Lemma renderHelper007_fields (h : Host X) :
  fields (snd (Mixin007.renderHelper cls h)) = fields h.
Proof.
  destruct (shadowRoot h) as [r|] eqn:Hr.
  - rewrite (renderHelper007_present h r Hr). reflexivity.
  - rewrite (renderHelper007_absent h Hr). cbv zeta.
    destruct (template_of _ _ _); reflexivity.
Qed.

End MixinFacts.

(** ** Looking up and updating elements *)

Lemma getElementById_importNode (c : Fragment) (id : string) :
  getElementById (importNode c) id
  = option_map (fun n => mkNode (n_tag n) (n_id n) (n_value n) []) (getElementById c id).
Proof.
  induction c as [|n rest IH]; cbn; [reflexivity|].
  destruct (String.eqb (n_id n) id); [reflexivity|exact IH].
Qed.

Lemma getElementById_update_same (r : Fragment) (id : string) (f : Node -> Node) :
  (forall n, n_id (f n) = n_id n) ->
  getElementById (update_element r id f) id = option_map f (getElementById r id).
Proof.
  intros Hf. induction r as [|n rest IH]; cbn; [reflexivity|].
  destruct (String.eqb (n_id n) id) eqn:E; cbn.
  - rewrite Hf, E. reflexivity.
  - rewrite E. exact IH.
Qed.

Lemma getElementById_update_other (r : Fragment) (id id' : string) (f : Node -> Node) :
  (forall n, n_id (f n) = n_id n) ->
  String.eqb id id' = false ->
  getElementById (update_element r id f) id' = getElementById r id'.
Proof.
  intros Hf Hne. induction r as [|n rest IH]; cbn; [reflexivity|].
  destruct (String.eqb (n_id n) id) eqn:E; cbn.
  - rewrite Hf. apply String.eqb_eq in E. rewrite E, Hne. reflexivity.
  - destruct (String.eqb (n_id n) id'); [reflexivity|exact IH].
Qed.

(** ** [render] and the methods it is built from *)

Section SpinBoxFacts.
Variable doc : Document.

Lemma template_of_class_table (h : SpinBox) :
  template_of (class_table doc) (PName "template") h
  = document_getElementById doc "spinBoxTemplate".
Proof. reflexivity. Qed.

Lemma project_eq (h : SpinBox) :
  project h =
    match shadowRoot h with
    | Some r =>
        match getElementById r "input" with
        | Some _ =>
            (Normal tt,
             mkHost (Some (update_element r "input" (with_text (ToString (value h)))))
                    (WriteValue "input" (ToString (value h)) :: effects h)
                    (fields h))
        | None => (Throw (TypeError "input"), h)
        end
    | None => (Throw (TypeError "this.shadowRoot"), h)
    end.
Proof.
  destruct h as [[r|] e f]; cbn; [|reflexivity].
  unfold project, write_value, bind, get_value, this_shadowRoot. cbn.
  destruct (getElementById r "input"); reflexivity.
Qed.

Lemma project_bind {A} (m : Method A) (h : SpinBox) :
  (m ;; project) h =
    match m h with
    | (Normal _, h1) =>
        match shadowRoot h1 with
        | Some r =>
            match getElementById r "input" with
            | Some _ =>
                (Normal tt,
                 mkHost (Some (update_element r "input" (with_text (ToString (value h1)))))
                        (WriteValue "input" (ToString (value h1)) :: effects h1)
                        (fields h1))
            | None => (Throw (TypeError "input"), h1)
            end
        | None => (Throw (TypeError "this.shadowRoot"), h1)
        end
    | (Throw e, h1) => (Throw e, h1)
    end.
Proof.
  unfold bind at 1. destruct (m h) as [[a|e] h1]; [|reflexivity]. apply project_eq.
Qed.

Lemma render_present (h : SpinBox) (r : Fragment) :
  shadowRoot h = Some r ->
  render doc h = project (mkHost (Some r) (Invoke "render" :: effects h) (fields h)).
Proof.
  destruct h as [sr e f]; cbn; intros ->. reflexivity.
Qed.

Lemma render_absent (h : SpinBox) :
  shadowRoot h = None ->
  render doc h =
    match document_getElementById doc "spinBoxTemplate" with
    | Some c =>
        (componentFirstRender ;; project)
          (mkHost (Some (importNode c))
                  (AppendChild :: AttachShadow :: Invoke "render" :: effects h)
                  (fields h))
    | None =>
        (Throw (TypeError "templateElement"),
         mkHost (Some []) (AttachShadow :: Invoke "render" :: effects h) (fields h))
    end.
Proof.
  destruct h as [sr e f]; cbn; intros ->.
  unfold render, bind at 1 2, emit.
  cbv beta iota.
  rewrite renderHelper006_absent by reflexivity. cbv zeta.
  rewrite template_of_class_table.
  destruct (document_getElementById doc "spinBoxTemplate"); reflexivity.
Qed.

(** The first [render] on a page that supplies the template: the subtree is
    created, the three listeners are registered and the value is shown. *)
Lemma first_render (h : SpinBox) :
  supplies_template doc = true ->
  shadowRoot h = None ->
  exists r,
    render doc h =
      (Normal tt,
       mkHost (Some r)
         (WriteValue "input" (ToString (value h))
          :: AddEventListener "downButton" "mousedown"
          :: AddEventListener "upButton" "mousedown"
          :: AddEventListener "input" "input"
          :: Log "SpinBox componentFirstRender called"
          :: Invoke "componentFirstRender"
          :: AppendChild :: AttachShadow :: Invoke "render" :: effects h)
         (fields h))
    /\ option_map n_value (getElementById r "input") = Some (ToString (value h))
    /\ option_map n_listeners (getElementById r "input") = Some [("input", input_listener)]
    /\ option_map n_listeners (getElementById r "upButton")
       = Some [("mousedown", upButton_listener)]
    /\ option_map n_listeners (getElementById r "downButton")
       = Some [("mousedown", downButton_listener)].
Proof.
  intros Hdoc Hr. rewrite (render_absent h Hr).
  unfold supplies_template, has_element in Hdoc.
  destruct (document_getElementById doc "spinBoxTemplate") as [c|]; [|discriminate].
  pose proof (getElementById_importNode c "input") as Gi.
  pose proof (getElementById_importNode c "upButton") as Gu.
  pose proof (getElementById_importNode c "downButton") as Gd.
  destruct (getElementById c "input") as [ni|]; [|discriminate].
  destruct (getElementById c "upButton") as [nu|]; [|discriminate].
  destruct (getElementById c "downButton") as [nd|]; [|discriminate].
  cbn in Gi, Gu, Gd.
  set (r1 := update_element (importNode c) "input" (with_listener "input" input_listener)).
  set (r2 := update_element r1 "upButton" (with_listener "mousedown" upButton_listener)).
  set (r3 := update_element r2 "downButton" (with_listener "mousedown" downButton_listener)).
  assert (Hid : forall t l n, n_id (with_listener t l n) = n_id n) by reflexivity.
  assert (Hidw : forall t n, n_id (with_text t n) = n_id n) by reflexivity.
  assert (G1i : getElementById r1 "input" = Some (with_listener "input" input_listener
                  (mkNode (n_tag ni) (n_id ni) (n_value ni) []))).
  { unfold r1. rewrite getElementById_update_same, Gi by apply Hid. reflexivity. }
  assert (G1u : getElementById r1 "upButton"
                = Some (mkNode (n_tag nu) (n_id nu) (n_value nu) [])).
  { unfold r1. rewrite getElementById_update_other, Gu by (apply Hid || reflexivity).
    reflexivity. }
  assert (G1d : getElementById r1 "downButton"
                = Some (mkNode (n_tag nd) (n_id nd) (n_value nd) [])).
  { unfold r1. rewrite getElementById_update_other, Gd by (apply Hid || reflexivity).
    reflexivity. }
  assert (G2i : getElementById r2 "input" = getElementById r1 "input").
  { unfold r2. apply getElementById_update_other; [apply Hid|reflexivity]. }
  assert (G2u : getElementById r2 "upButton"
                = option_map (with_listener "mousedown" upButton_listener)
                    (getElementById r1 "upButton")).
  { unfold r2. apply getElementById_update_same, Hid. }
  assert (G2d : getElementById r2 "downButton" = getElementById r1 "downButton").
  { unfold r2. apply getElementById_update_other; [apply Hid|reflexivity]. }
  assert (G3i : getElementById r3 "input" = getElementById r2 "input").
  { unfold r3. apply getElementById_update_other; [apply Hid|reflexivity]. }
  assert (G3u : getElementById r3 "upButton" = getElementById r2 "upButton").
  { unfold r3. apply getElementById_update_other; [apply Hid|reflexivity]. }
  assert (G3d : getElementById r3 "downButton"
                = option_map (with_listener "mousedown" downButton_listener)
                    (getElementById r2 "downButton")).
  { unfold r3. apply getElementById_update_same, Hid. }
  exists (update_element r3 "input" (with_text (ToString (value h)))).
  split.
  - unfold bind at 1.
    assert (Hc : componentFirstRender
                   (mkHost (Some (importNode c))
                      (AppendChild :: AttachShadow :: Invoke "render" :: effects h)
                      (fields h))
                 = (Normal tt,
                    mkHost (Some r3)
                      (AddEventListener "downButton" "mousedown"
                       :: AddEventListener "upButton" "mousedown"
                       :: AddEventListener "input" "input"
                       :: Log "SpinBox componentFirstRender called"
                       :: Invoke "componentFirstRender"
                       :: AppendChild :: AttachShadow :: Invoke "render" :: effects h)
                      (fields h))).
    { unfold componentFirstRender, addEventListener, bind, emit, console_log, emit,
        this_shadowRoot, replace_root, throw.
      cbn. rewrite Gi. cbn. fold (with_listener "input" input_listener). fold r1.
      rewrite G1u. cbn. fold (with_listener "mousedown" upButton_listener). fold r2.
      rewrite G2d, G1d. cbn. reflexivity. }
    rewrite Hc. rewrite project_eq. cbn.
    rewrite G3i, G2i, G1i. reflexivity.
  - rewrite getElementById_update_same by apply Hidw.
    rewrite !getElementById_update_other by (apply Hidw || reflexivity).
    rewrite G3i, G2i, G1i, G3u, G2u, G1u, G3d, G2d, G1d. cbn. repeat split.
Qed.

Lemma componentFirstRender_adds (h : SpinBox) :
  shadowRoot h <> None ->
  adds h (snd (componentFirstRender h)) 0 0 1 0 3.
Proof.
  destruct h as [[r|] e f]; [intros _|intros H; exfalso; apply H; reflexivity].
  unfold componentFirstRender, addEventListener, bind, emit, console_log, emit,
    this_shadowRoot, replace_root, throw.
  cbn.
  repeat match goal with
         | |- context [getElementById ?x ?i] => destruct (getElementById x i); cbn
         end.
  all: split; cbn;
    solve [congruence | reflexivity | lia | unfold wirings, count_effects; cbn; lia].
Qed.

Lemma project_adds (h : SpinBox) :
  shadowRoot h <> None ->
  adds h (snd (project h)) 0 0 0 1 0.
Proof.
  destruct h as [[r|] e f]; [intros _|intros H; exfalso; apply H; reflexivity].
  rewrite project_eq. cbn.
  destruct (getElementById r "input"); cbn.
  all: split; cbn;
    solve [congruence | reflexivity | lia | unfold wirings, count_effects; cbn; lia].
Qed.

Lemma render_adds (h : SpinBox) :
  adds h (snd (render doc h)) 1
    (match shadowRoot h with Some _ => 0 | None => 1 end)
    (match shadowRoot h, document_getElementById doc "spinBoxTemplate" with
     | None, Some _ => 1
     | _, _ => 0
     end)
    1
    (match shadowRoot h with Some _ => 0 | None => 3 end).
Proof.
  destruct (shadowRoot h) as [r|] eqn:Hr.
  - rewrite (render_present h r Hr).
    destruct (project_adds (mkHost (Some r) (Invoke "render" :: effects h) (fields h)))
      as [H1 H2 H3 H4 H5 H6 H7]; [cbn; congruence|].
    split; [exact H1 | exact H2 | exact H3 | exact H4 | exact H5 | exact H6 | exact H7].
  - rewrite (render_absent h Hr).
    destruct (document_getElementById doc "spinBoxTemplate") as [c|].
    + set (h1 := mkHost (Some (importNode c))
                   (AppendChild :: AttachShadow :: Invoke "render" :: effects h) (fields h)).
      assert (Hc : adds h1 (snd (componentFirstRender h1)) 0 0 1 0 3)
        by (apply componentFirstRender_adds; cbn; congruence).
      assert (Hp : projections h1 = projections h) by reflexivity.
      assert (Hw : wirings h1 = wirings h) by reflexivity.
      unfold bind. destruct (componentFirstRender h1) as [[[]|err] h2]; cbn in Hc.
      * destruct Hc as [H1 H2 H3 H4 H5 H6 H7].
        destruct (project_adds h2 H1) as [K1 K2 K3 K4 K5 K6 K7].
        split; [exact K1 | rewrite K2, H2; reflexivity | | | | | ].
        -- rewrite K3, H3. reflexivity.
        -- rewrite K4, H4. reflexivity.
        -- rewrite K5, H5. reflexivity.
        -- lia.
        -- lia.
      * destruct Hc as [H1 H2 H3 H4 H5 H6 H7].
        split; cbn; [exact H1 | exact H2 | | | | | ].
        -- rewrite H3. reflexivity.
        -- rewrite H4. reflexivity.
        -- rewrite H5. reflexivity.
        -- lia.
        -- lia.
    + split; cbn; try solve [congruence | reflexivity].
      * unfold projections, count_effects. lia.
      * unfold wirings, count_effects. cbn. lia.
Qed.

Lemma life_cycle_constructor : life_cycle doc constructor.
Proof. cbn. repeat split. Qed.

Lemma life_cycle_render (h : SpinBox) :
  life_cycle doc h -> life_cycle doc (snd (render doc h)).
Proof.
  intros Hl. destruct (render_adds h) as [H1 H2 H3 H4 H5 H6 H7].
  assert (Hexact : shadowRoot h = None -> supplies_template doc = true ->
                   wirings (snd (render doc h)) = (3 + wirings h)%nat).
  { intros Hr Hdoc. destruct (first_render h Hdoc Hr) as (r & Heq & _).
    rewrite Heq. reflexivity. }
  unfold life_cycle in *.
  destruct (shadowRoot (snd (render doc h))); [|congruence].
  destruct (shadowRoot h) as [r|].
  - destruct Hl as (L1 & L2 & L3 & L4 & L5 & L6).
    repeat split; try lia.
    intros Hdoc. specialize (L6 Hdoc). lia.
  - destruct Hl as (L1 & L2 & L3 & L4 & L5).
    repeat split; try lia;
      try (destruct (document_getElementById doc "spinBoxTemplate"); lia).
    intros Hdoc. specialize (Hexact eq_refl Hdoc). lia.
Qed.

Lemma life_cycle_ext (h h' : SpinBox) :
  (shadowRoot h = None <-> shadowRoot h' = None) ->
  renders h' = renders h ->
  subtrees_created h' = subtrees_created h ->
  first_renders h' = first_renders h ->
  projections h' = projections h ->
  wirings h' = wirings h ->
  life_cycle doc h -> life_cycle doc h'.
Proof.
  unfold life_cycle. intros Hr -> -> -> -> ->.
  destruct (shadowRoot h), (shadowRoot h'); try exact (fun x => x).
  - destruct Hr as [_ Hr]. discriminate (Hr eq_refl).
  - destruct Hr as [Hr _]. discriminate (Hr eq_refl).
Qed.

Lemma life_cycle_host_call {A} (m : Method A) (h : SpinBox) :
  life_cycle doc (snd (m h)) -> life_cycle doc (host_call m h).
Proof.
  unfold host_call. destruct (m h) as [[a|e] h']; cbn; [exact (fun x => x)|].
  apply life_cycle_ext; cbn; tauto.
Qed.

Lemma life_cycle_set_value (v : jsval) (h : SpinBox) :
  life_cycle doc h -> life_cycle doc (snd (set_value doc v h)).
Proof.
  intros Hl. unfold set_value, bind, this, store_value.
  destruct (strict_not_equal v (value h)); [|exact Hl].
  apply life_cycle_render. revert Hl. apply life_cycle_ext; cbn; tauto.
Qed.

Lemma life_cycle_run_listener (l : Listener) (h : SpinBox) :
  life_cycle doc h -> life_cycle doc (snd (run_listener doc l h)).
Proof.
  destruct l; cbn; [exact (fun x => x)| |]; apply life_cycle_set_value.
Qed.

Lemma life_cycle_run_listeners (ls : list (string * Listener)) (type : string) :
  forall h, life_cycle doc h -> life_cycle doc (run_listeners doc ls type h).
Proof.
  induction ls as [|[t l] rest IH]; intros h Hl; cbn; [exact Hl|].
  destruct (String.eqb t type); [|apply IH, Hl].
  apply IH, life_cycle_host_call, life_cycle_run_listener, Hl.
Qed.

Lemma life_cycle_step (e : HostEvent) (h : SpinBox) :
  life_cycle doc h -> life_cycle doc (step doc h e).
Proof.
  intros Hl. destruct e; unfold step.
  - apply life_cycle_host_call. unfold connectedCallback, bind, console_log, emit.
    apply life_cycle_render. revert Hl. apply life_cycle_ext; cbn; tauto.
  - apply life_cycle_host_call. cbn. revert Hl. apply life_cycle_ext; cbn; tauto.
  - apply life_cycle_host_call. cbn. revert Hl. apply life_cycle_ext; cbn; tauto.
  - destruct (existsb (String.eqb name) observedAttributes); [|exact Hl].
    apply life_cycle_host_call.
    unfold attributeChangedCallback, bind, console_log, emit.
    assert (Hl' : life_cycle doc
              (mkHost (shadowRoot h)
                 (Log "SpinBox attributes changed: attributeChangedCallback" :: effects h)
                 (fields h)))
      by (revert Hl; apply life_cycle_ext; cbn; tauto).
    destruct (String.eqb name "value"); [|exact Hl'].
    apply life_cycle_set_value, Hl'.
  - apply life_cycle_host_call, life_cycle_set_value, Hl.
  - apply life_cycle_host_call, life_cycle_render, Hl.
  - unfold type_text. destruct (shadowRoot h) as [r|] eqn:Hr; [|exact Hl].
    apply life_cycle_run_listeners. revert Hl.
    apply life_cycle_ext; cbn; try reflexivity. rewrite Hr. split; discriminate.
  - apply life_cycle_run_listeners, Hl.
Qed.

Lemma life_cycle_run (events : list HostEvent) :
  forall h, life_cycle doc h -> life_cycle doc (run doc events h).
Proof.
  induction events as [|e rest IH]; intros h Hl; cbn; [exact Hl|].
  apply IH, life_cycle_step, Hl.
Qed.

Lemma life_cycle_render_times (n : nat) :
  forall h, life_cycle doc h -> life_cycle doc (render_times doc n h).
Proof.
  induction n as [|k IH]; intros h Hl; cbn; [exact Hl|].
  apply IH, life_cycle_host_call, life_cycle_render, Hl.
Qed.

Lemma render_times_root (n : nat) :
  forall h, (1 <= n)%nat -> shadowRoot (render_times doc n h) <> None.
Proof.
  induction n as [|k IH]; intros h Hn; [lia|]. cbn.
  destruct k as [|k'].
  - cbn. unfold host_call. pose proof (adds_root _ _ _ _ _ _ _ (render_adds h)) as Hr.
    destruct (render doc h) as [[a|e] h']; cbn in *; exact Hr.
  - apply IH. lia.
Qed.

Lemma set_value_eq (v : jsval) (h : SpinBox) :
  set_value doc v h =
    if strict_equal v (value h) then (Normal tt, h)
    else render doc (mkHost (shadowRoot h) (effects h) (mkFields v)).
Proof.
  unfold set_value, bind, this, store_value, strict_not_equal.
  destruct (strict_equal v (value h)); reflexivity.
Qed.

(** What [render] returns and what it does to the shadow tree and to the
    fields does not depend on the trace. *)
Lemma render_same_dom (h h' : SpinBox) :
  shadowRoot h = shadowRoot h' ->
  fields h = fields h' ->
  fst (render doc h) = fst (render doc h')
  /\ shadowRoot (snd (render doc h)) = shadowRoot (snd (render doc h'))
  /\ fields (snd (render doc h)) = fields (snd (render doc h')).
Proof.
  destruct h as [sr e f], h' as [sr' e' f']. intros H1 H2. cbn in H1, H2. subst sr' f'.
  destruct sr as [r|].
  - rewrite (render_present (mkHost (Some r) e f) r eq_refl),
      (render_present (mkHost (Some r) e' f) r eq_refl), !project_eq. cbn.
    destruct (getElementById r "input"); cbn; repeat split.
  - rewrite !render_absent by reflexivity.
    destruct (document_getElementById doc "spinBoxTemplate") as [c|]; [|cbn; repeat split].
    rewrite !project_bind.
    unfold componentFirstRender, addEventListener, bind, emit, console_log, emit,
      this_shadowRoot, replace_root, throw.
    cbn.
    repeat match goal with
           | |- context [getElementById ?x ?i] => destruct (getElementById x i); cbn
           end.
    all: repeat split.
Qed.

End SpinBoxFacts.

(** * The claims *)

(** ** Idempotent materialization *)

Lemma renderHelper006_settled {X} (cls : ClassTable X) (n : nat) (h : Host X) :
  shadowRoot h <> None ->
  call_times (Mixin006.renderHelper cls) n h = (repeat (Normal false) n, h).
Proof.
  intros Hr. induction n as [|k IH]; cbn [call_times repeat]; [reflexivity|].
  destruct (shadowRoot h) as [r|] eqn:E; [|congruence].
  rewrite (renderHelper006_present cls h r E), IH. reflexivity.
Qed.

(** C2. Whatever has happened to an element since its construction, calling
    [render] N >= 1 times in a row leaves it with exactly one subtree created
    over its whole life.  [renderHelper] attaches and fills the shadow root
    only when there is none: on a host without one it attaches one (and, when
    it returns, it returns [true] and the root holds the copy of the
    template); on a host with one, and so on every call after a first one, it
    changes nothing and returns [false]. *)
Theorem render_creates_exactly_one_subtree :
  forall (doc : Document) (events : list HostEvent) (N : nat),
    (1 <= N)%nat ->
    subtrees_created (render_times doc N (run doc events constructor)) = 1%nat
    /\ (forall h : SpinBox,
          shadowRoot h <> None ->
          Mixin006.renderHelper (class_table doc) h = (Normal false, h))
    /\ (forall h : SpinBox,
          shadowRoot h = None ->
          let h1 := snd (Mixin006.renderHelper (class_table doc) h) in
          shadowRoot h1 <> None
          /\ count_effects is_AttachShadow (effects h1)
             = S (count_effects is_AttachShadow (effects h))
          /\ match fst (Mixin006.renderHelper (class_table doc) h) with
             | Normal b =>
                 b = true
                 /\ exists c, document_getElementById doc "spinBoxTemplate" = Some c
                              /\ shadowRoot h1 = Some (importNode c)
             | Throw _ => True
             end)
    /\ (forall (h : SpinBox) (n : nat),
          let h1 := snd (Mixin006.renderHelper (class_table doc) h) in
          call_times (Mixin006.renderHelper (class_table doc)) n h1
          = (repeat (Normal false) n, h1)).
Proof.
  intros doc events N HN. split; [|split; [|split]].
  - pose proof (life_cycle_render_times doc N _
                  (life_cycle_run doc events _ (life_cycle_constructor doc))) as Hl.
    pose proof (render_times_root doc N (run doc events constructor) HN) as Hr.
    unfold life_cycle in Hl.
    destruct (shadowRoot (render_times doc N (run doc events constructor)));
      [tauto|congruence].
  - intros h Hr. destruct (shadowRoot h) as [r|] eqn:E; [|congruence].
    exact (renderHelper006_present _ h r E).
  - intros h Hr h1. split; [apply renderHelper006_root|].
    unfold h1. rewrite (renderHelper006_absent _ h Hr). cbv zeta.
    rewrite template_of_class_table.
    destruct (document_getElementById doc "spinBoxTemplate") as [c|]; cbn.
    + split; [reflexivity|]. split; [reflexivity|]. exists c. split; reflexivity.
    + split; [reflexivity|exact I].
  - intros h n. apply renderHelper006_settled, renderHelper006_root.
Qed.

Lemma render_creates_exactly_one_subtree_witness :
  subtrees_created (render_times index_html 3 (run index_html [] constructor)) = 1%nat.
Proof.
  apply (render_creates_exactly_one_subtree index_html [] 3). lia.
Defined.

(** ** Single wiring *)

(** C3. Whatever sequence of attachments, attribute changes, assignments to
    [value], direct calls of [render] and user interactions an element has
    seen since its construction, [componentFirstRender] has been entered at
    most once.  On a page that has the template it has been entered exactly
    once as soon as [render] has been entered at all; when the template
    holds the three elements, [addEventListener] has then been called three
    times in all, once for each listener. *)
Theorem componentFirstRender_runs_exactly_once :
  forall (doc : Document) (events : list HostEvent),
    (first_renders (run doc events constructor) <= 1)%nat
    /\ (document_getElementById doc "spinBoxTemplate" <> None ->
        (1 <= renders (run doc events constructor))%nat ->
        first_renders (run doc events constructor) = 1%nat)
    /\ (supplies_template doc = true ->
        (1 <= renders (run doc events constructor))%nat ->
        wirings (run doc events constructor) = 3%nat).
Proof.
  intros doc events.
  pose proof (life_cycle_run doc events _ (life_cycle_constructor doc)) as Hl.
  unfold life_cycle in Hl.
  destruct (shadowRoot (run doc events constructor)).
  - destruct Hl as (L1 & L2 & L3 & L4 & L5 & L6).
    split; [destruct (document_getElementById doc "spinBoxTemplate"); lia|].
    split; [|intros Hdoc _; exact (L6 Hdoc)].
    intros Hdoc _.
    destruct (document_getElementById doc "spinBoxTemplate"); [exact L3|congruence].
  - destruct Hl as (L1 & L2 & L3 & L4 & L5).
    split; [lia|]. split; intros _ Hn; lia.
Qed.

Lemma componentFirstRender_runs_exactly_once_witness :
  let h := run index_html
             [AttributeChanged "value" None (Some "5"); Connected; MouseDown "upButton";
              TextEntered "9"; AssignValue (JNum 2); CallRender]
             constructor in
  first_renders h = 1%nat /\ wirings h = 3%nat.
Proof.
  split.
  - apply componentFirstRender_runs_exactly_once.
    + discriminate.
    + vm_compute. lia.
  - apply componentFirstRender_runs_exactly_once.
    + reflexivity.
    + vm_compute. lia.
Defined.

(** ** The setter *)

(** C4. [set value(v)]: when [v === this._value] nothing at all happens (the
    element is unchanged, so no projection runs); otherwise [v] is stored and
    [render] is called on the element holding [v], after which [value] reads
    [v].  For an integer [v] the test is equality with the current value:
    nothing happens when the current value is [v], and [v] is stored and
    rendered when it is not. *)
Theorem set_value_change_detection :
  forall (doc : Document) (h : SpinBox) (newValue : jsval),
    (if strict_equal newValue (value h)
     then set_value doc newValue h = (Normal tt, h)
     else set_value doc newValue h
          = render doc (mkHost (shadowRoot h) (effects h) (mkFields newValue))
          /\ renders (snd (set_value doc newValue h)) = S (renders h)
          /\ value (snd (set_value doc newValue h)) = newValue)
    /\ (forall z : Z, newValue = JNum z ->
          (value h = newValue -> set_value doc newValue h = (Normal tt, h))
          /\ (value h <> newValue ->
              renders (snd (set_value doc newValue h)) = S (renders h)
              /\ value (snd (set_value doc newValue h)) = newValue)).
Proof.
  intros doc h v.
  assert (Hmain : if strict_equal v (value h)
                  then set_value doc v h = (Normal tt, h)
                  else set_value doc v h
                       = render doc (mkHost (shadowRoot h) (effects h) (mkFields v))
                       /\ renders (snd (set_value doc v h)) = S (renders h)
                       /\ value (snd (set_value doc v h)) = v).
  { rewrite set_value_eq.
    destruct (strict_equal v (value h)); [reflexivity|].
    split; [reflexivity|].
    destruct (render_adds doc (mkHost (shadowRoot h) (effects h) (mkFields v)))
      as [_ H2 H3 _ _ _ _].
    split; [exact H3|]. unfold value. rewrite H2. reflexivity. }
  split; [exact Hmain|].
  intros z ->. split.
  - intros Hv. rewrite Hv in Hmain. cbn in Hmain. rewrite Z.eqb_refl in Hmain.
    exact Hmain.
  - intros Hv.
    assert (Hne : strict_equal (JNum z) (value h) = false).
    { destruct (value h) as [y|]; cbn; [|reflexivity].
      apply Z.eqb_neq. congruence. }
    rewrite Hne in Hmain. tauto.
Qed.

Lemma set_value_change_detection_witness :
  set_value index_html (JNum 0) constructor = (Normal tt, constructor)
  /\ value (snd (set_value index_html (JNum 4) constructor)) = JNum 4.
Proof.
  split.
  - apply (set_value_change_detection index_html constructor (JNum 0)) with (z := 0);
      reflexivity.
  - apply (set_value_change_detection index_html constructor (JNum 4)) with (z := 4).
    + reflexivity.
    + discriminate.
Defined.

(** ** The projection step finds a shadow root *)

(** C5. In every call of [render], the state in which the last statement
    runs has a shadow root, and [render] never ends with the exception of
    reading a property of an absent shadow root. *)
Theorem projection_finds_shadow_root :
  forall (doc : Document) (h : SpinBox),
    fst (render doc h) <> Throw (TypeError "this.shadowRoot")
    /\ (forall h2 : SpinBox,
          render_prefix doc h = (Normal tt, h2) ->
          shadowRoot h2 <> None /\ render doc h = project h2).
Proof.
  intros doc h. split.
  - destruct (shadowRoot h) as [r|] eqn:Hr.
    + rewrite (render_present doc h r Hr), project_eq. cbn.
      destruct (getElementById r "input"); cbn; discriminate.
    + rewrite (render_absent doc h Hr).
      destruct (document_getElementById doc "spinBoxTemplate") as [c|]; [|cbn; discriminate].
      set (h1 := mkHost _ _ _).
      pose proof (componentFirstRender_adds h1) as Hc.
      unfold bind. destruct (componentFirstRender h1) as [[[]|err] h2] eqn:E.
      * destruct Hc as [H1 _ _ _ _ _ _]; [cbn; congruence|]. cbn in H1.
        rewrite project_eq. destruct (shadowRoot h2) as [r2|]; [|congruence].
        destruct (getElementById r2 "input"); cbn; discriminate.
      * revert E. unfold h1, componentFirstRender, addEventListener, bind, emit,
          console_log, emit, this_shadowRoot, replace_root, throw. cbn.
        repeat match goal with
               | |- context [getElementById ?x ?i] => destruct (getElementById x i); cbn
               end.
        all: intros E; inversion E; subst; cbn; discriminate.
  - intros h2 Hp.
    assert (Hrender : render doc h = (render_prefix doc ;; project) h).
    { unfold render, render_prefix, bind.
      destruct (emit (Invoke "render") h) as [[a|e] h0]; [|reflexivity].
      destruct (Mixin006.renderHelper (class_table doc) h0) as [[b|e] h1]; reflexivity. }
    split.
    + revert Hp. unfold render_prefix, bind, emit. cbv beta iota.
      set (h0 := mkHost _ _ _).
      pose proof (renderHelper006_root (class_table doc) h0) as Hroot.
      destruct (Mixin006.renderHelper (class_table doc) h0) as [[[|]|e] h1];
        cbn in Hroot; [| |discriminate].
      * intros Hc. pose proof (componentFirstRender_adds h1 Hroot) as [H1 _ _ _ _ _ _].
        rewrite Hc in H1. exact H1.
      * unfold ret. intros Hc. inversion Hc. subst. exact Hroot.
    + rewrite Hrender. unfold bind at 1. rewrite Hp. reflexivity.
Qed.

Lemma projection_finds_shadow_root_witness :
  shadowRoot (snd (render_prefix index_html constructor)) <> None
  /\ render index_html constructor = project (snd (render_prefix index_html constructor)).
Proof.
  apply (projection_finds_shadow_root index_html constructor). reflexivity.
Defined.

(** ** An attribute supplied before attachment *)

(** The callback on a new element, when the parsed text is not [=== 0]. *)
Lemma attribute_before_attachment (doc : Document) (o n : option string) :
  strict_equal (parseInt (attribute_text n)) (JNum 0) = false ->
  let v := parseInt (attribute_text n) in
  let h0 := mkHost None
              [Log "SpinBox attributes changed: attributeChangedCallback";
               Log "SpinBox constructor called"] (mkFields v) in
  let h := snd (attributeChangedCallback doc "value" o n constructor) in
  attributeChangedCallback doc "value" o n constructor = render doc h0
  /\ value h = v
  /\ shadowRoot h <> None
  /\ subtrees_created h = 1%nat
  /\ renders h = 1%nat
  /\ (supplies_template doc = true ->
      displayed "input" h = Some (ToString v)
      /\ projections h = 1%nat
      /\ first_renders h = 1%nat
      /\ wirings h = 3%nat).
Proof.
  intros Hv v h0 h.
  assert (Hcall : attributeChangedCallback doc "value" o n constructor = render doc h0).
  { unfold attributeChangedCallback, bind, console_log, emit. cbn -[set_value parseInt].
    rewrite set_value_eq. unfold value. cbn -[render parseInt].
    rewrite Hv. reflexivity. }
  split; [exact Hcall|].
  unfold h. rewrite Hcall.
  destruct (render_adds doc h0) as [H1 H2 H3 H4 _ _ _].
  split; [unfold value; rewrite H2; reflexivity|].
  split; [exact H1|]. split; [exact H4|]. split; [exact H3|].
  intros Hdoc.
  destruct (first_render doc h0 Hdoc eq_refl) as (r & Hr & Hval & _).
  rewrite Hr. unfold displayed. cbn -[ToString parseInt].
  repeat split. exact Hval.
Qed.

(** C1, as the code behaves. The callback for [value] with the text "abc" on
    a new, unattached element stores [NaN], the result of [parseInt], because
    [NaN !== 0], and the render the setter calls creates the shadow root; on
    a page that supplies the template one projection runs and the display
    reads "NaN". *)
Theorem non_numeric_attribute_stores_NaN :
  forall (doc : Document) (oldValue : option string),
    let h := snd (attributeChangedCallback doc "value" oldValue (Some "abc") constructor) in
    parseInt "abc" = JNaN
    /\ value h = JNaN
    /\ shadowRoot h <> None
    /\ subtrees_created h = 1%nat
    /\ (supplies_template doc = true ->
        projections h = 1%nat /\ displayed "input" h = Some "NaN").
Proof.
  intros doc o h.
  destruct (attribute_before_attachment doc o (Some "abc") eq_refl)
    as (_ & H1 & H2 & H3 & _ & H4).
  split; [reflexivity|]. split; [exact H1|]. split; [exact H2|]. split; [exact H3|].
  intros Hdoc. destruct (H4 Hdoc) as (K1 & K2 & _). split; assumption.
Qed.

Lemma non_numeric_attribute_stores_NaN_witness :
  displayed "input"
    (snd (attributeChangedCallback index_html "value" None (Some "abc") constructor))
  = Some "NaN".
Proof.
  apply (non_numeric_attribute_stores_NaN index_html None). reflexivity.
Defined.

(** C1 as stated fails on the page of the chapter: the value does not stay 0,
    a projection runs and a shadow root is created. *)
Lemma non_numeric_attribute_is_not_ignored :
  let h := snd (attributeChangedCallback index_html "value" None (Some "abc") constructor) in
  ~ (value h = JNum 0 /\ projections h = 0%nat /\ shadowRoot h = None).
Proof.
  cbv zeta. intros (Hv & _ & _). vm_compute in Hv. discriminate Hv.
Qed.

(** C7. The callback for [value] with the text "7" on a new, unattached
    element makes [value] 7.  The element had no shadow root; the one it has
    afterwards was created by the [render] the setter called: the callback is
    that [render] on the element holding 7, the only [render] so far.  On a
    page that supplies the template the display reads "7". *)
Theorem attribute_seven_before_attachment :
  forall (doc : Document) (oldValue : option string),
    let h := snd (attributeChangedCallback doc "value" oldValue (Some "7") constructor) in
    shadowRoot constructor = None
    /\ value h = JNum 7
    /\ shadowRoot h <> None
    /\ subtrees_created h = 1%nat
    /\ renders h = 1%nat
    /\ attributeChangedCallback doc "value" oldValue (Some "7") constructor
       = render doc
           (mkHost None
              [Log "SpinBox attributes changed: attributeChangedCallback";
               Log "SpinBox constructor called"] (mkFields (JNum 7)))
    /\ (supplies_template doc = true -> displayed "input" h = Some "7").
Proof.
  intros doc o h.
  destruct (attribute_before_attachment doc o (Some "7") eq_refl)
    as (H0 & H1 & H2 & H3 & H4 & H5).
  split; [reflexivity|]. split; [exact H1|]. split; [exact H2|]. split; [exact H3|].
  split; [exact H4|]. split; [exact H0|].
  intros Hdoc. exact (proj1 (H5 Hdoc)).
Qed.

Lemma attribute_seven_before_attachment_witness :
  displayed "input"
    (snd (attributeChangedCallback index_html "value" None (Some "7") constructor))
  = Some "7".
Proof.
  apply (attribute_seven_before_attachment index_html None). reflexivity.
Defined.

(** ** Convergent entry points *)

(** C6. Attaching a new element, and attaching it after the callback for
    [value] with the text "0", end in the same state of the element: the same
    shadow tree, value 0, one subtree created and the same number of runs of
    [componentFirstRender]; on a page that supplies the template the display
    reads "0" and the listeners have been registered once, in both. *)
Theorem attached_alone_converges :
  forall doc : Document,
    let a := run doc [Connected] constructor in
    let b := run doc [AttributeChanged "value" None (Some "0"); Connected] constructor in
    shadowRoot a = shadowRoot b
    /\ value a = JNum 0 /\ value b = JNum 0
    /\ subtrees_created a = 1%nat /\ subtrees_created b = 1%nat
    /\ first_renders a = first_renders b
    /\ (supplies_template doc = true ->
        displayed "input" a = Some "0"
        /\ first_renders a = 1%nat
        /\ listeners_of "input" a = [("input", input_listener)]
        /\ listeners_of "upButton" a = [("mousedown", upButton_listener)]
        /\ listeners_of "downButton" a = [("mousedown", downButton_listener)]).
Proof.
  intros doc a b.
  set (ha := mkHost None
               [Log "SpinBox added to page: connectedCallback";
                Log "SpinBox constructor called"] (mkFields (JNum 0))).
  set (hb := mkHost None
               [Log "SpinBox added to page: connectedCallback";
                Log "SpinBox attributes changed: attributeChangedCallback";
                Log "SpinBox constructor called"] (mkFields (JNum 0))).
  assert (Ha : a = host_call (render doc) ha) by reflexivity.
  assert (Hb : b = host_call (render doc) hb) by reflexivity.
  destruct (render_same_dom doc ha hb eq_refl eq_refl) as (S1 & S2 & S3).
  destruct (render_adds doc ha) as [A1 A2 A3 A4 A5 _ _].
  destruct (render_adds doc hb) as [B1 B2 B3 B4 B5 _ _].
  assert (Hca : forall p, count_effects p (effects a)
                          = (count_effects p (effects (snd (render doc ha)))
                             + count_effects p
                                 (match fst (render doc ha) with
                                  | Normal _ => []
                                  | Throw e => [Uncaught e]
                                  end))%nat).
  { intros p. rewrite Ha. unfold host_call.
    destruct (render doc ha) as [[x|e] h']; cbn; [lia|].
    unfold count_effects. cbn. destruct (p (Uncaught e)); cbn; lia. }
  assert (Hcb : forall p, count_effects p (effects b)
                          = (count_effects p (effects (snd (render doc hb)))
                             + count_effects p
                                 (match fst (render doc hb) with
                                  | Normal _ => []
                                  | Throw e => [Uncaught e]
                                  end))%nat).
  { intros p. rewrite Hb. unfold host_call.
    destruct (render doc hb) as [[x|e] h']; cbn; [lia|].
    unfold count_effects. cbn. destruct (p (Uncaught e)); cbn; lia. }
  assert (Hra : shadowRoot a = shadowRoot (snd (render doc ha))
                /\ fields a = fields (snd (render doc ha))).
  { rewrite Ha. unfold host_call. destruct (render doc ha) as [[x|e] h']; split; reflexivity. }
  assert (Hrb : shadowRoot b = shadowRoot (snd (render doc hb))
                /\ fields b = fields (snd (render doc hb))).
  { rewrite Hb. unfold host_call. destruct (render doc hb) as [[x|e] h']; split; reflexivity. }
  destruct Hra as [Ra Fa], Hrb as [Rb Fb].
  assert (Hu : forall c : completion unit,
             count_effects is_AttachShadow
               (match c with Normal _ => [] | Throw e => [Uncaught e] end) = 0%nat
             /\ count_effects (is_Invoke "componentFirstRender")
               (match c with Normal _ => [] | Throw e => [Uncaught e] end) = 0%nat)
    by (intros [x|e]; split; reflexivity).
  split; [congruence|].
  split; [unfold value; rewrite Fa, A2; reflexivity|].
  split; [unfold value; rewrite Fb, B2; reflexivity|].
  split; [unfold subtrees_created in *; rewrite Hca, A4, (proj1 (Hu _)); reflexivity|].
  split; [unfold subtrees_created in *; rewrite Hcb, B4, (proj1 (Hu _)); reflexivity|].
  split.
  { unfold first_renders in *. rewrite Hca, Hcb, A5, B5, !(proj2 (Hu _)). reflexivity. }
  intros Hdoc.
  destruct (first_render doc ha Hdoc eq_refl) as (r & Hr & G1 & G2 & G3 & G4).
  rewrite Ha. unfold host_call, displayed, listeners_of. rewrite Hr. cbn.
  split; [exact G1|]. split; [reflexivity|].
  destruct (getElementById r "input"); [|discriminate].
  destruct (getElementById r "upButton"); [|discriminate].
  destruct (getElementById r "downButton"); [|discriminate].
  cbn in G2, G3, G4. repeat split; congruence.
Qed.

Lemma attached_alone_converges_witness :
  displayed "input" (run index_html [Connected] constructor) = Some "0".
Proof.
  apply (attached_alone_converges index_html). reflexivity.
Defined.

(** ** Direct text entry *)

(** C8, what the code does.  After the first render on the page of the
    chapter the display element carries the [input] listener; the user
    typing a text fires it; the listener throws a [ReferenceError] for
    [inputElem] without touching the element, so the display reads the typed
    text while [value] still is 0. *)
Theorem text_entry_does_not_reach_value :
  forall text : string,
    let h0 := run index_html [Connected] constructor in
    let h := run index_html [Connected; TextEntered text] constructor in
    listeners_of "input" h0 = [("input", input_listener)]
    /\ (forall (doc : Document) (s : SpinBox),
          run_listener doc input_listener s = (Throw (ReferenceError "inputElem"), s))
    /\ displayed "input" h = Some text
    /\ value h = JNum 0
    /\ hd_error (effects h) = Some (Uncaught (ReferenceError "inputElem")).
Proof.
  intros text. repeat split.
Qed.

(** ** No validation in the setter *)

(** C9. The setter stores any value that is [!==] the current one and calls
    [render]; [NaN] is [!==] every value, so writing [NaN] is accepted even
    when the current value is [NaN]. *)
Theorem setter_stores_whatever_differs :
  forall (doc : Document) (h : SpinBox) (v : jsval),
    (strict_not_equal v (value h) = true ->
       set_value doc v h = render doc (mkHost (shadowRoot h) (effects h) (mkFields v))
       /\ value (snd (set_value doc v h)) = v
       /\ renders (snd (set_value doc v h)) = S (renders h))
    /\ strict_not_equal JNaN (value h) = true
    /\ (value h = JNaN ->
          value (snd (set_value doc JNaN h)) = JNaN
          /\ renders (snd (set_value doc JNaN h)) = S (renders h)).
Proof.
  intros doc h v.
  assert (Hgen : forall w, strict_not_equal w (value h) = true ->
            set_value doc w h = render doc (mkHost (shadowRoot h) (effects h) (mkFields w))
            /\ value (snd (set_value doc w h)) = w
            /\ renders (snd (set_value doc w h)) = S (renders h)).
  { intros w Hw. rewrite set_value_eq. unfold strict_not_equal in Hw.
    destruct (strict_equal w (value h)); [discriminate|].
    destruct (render_adds doc (mkHost (shadowRoot h) (effects h) (mkFields w)))
      as [_ H2 H3 _ _ _ _].
    split; [reflexivity|]. split; [unfold value; rewrite H2; reflexivity|exact H3]. }
  split; [apply Hgen|]. split; [reflexivity|].
  intros _. apply (Hgen JNaN). reflexivity.
Qed.

Lemma setter_stores_whatever_differs_witness :
  let h := mkHost None [] (mkFields JNaN) in
  value (snd (set_value index_html JNaN h)) = JNaN
  /\ renders (snd (set_value index_html JNaN h)) = S (renders h).
Proof.
  apply (setter_stores_whatever_differs index_html (mkHost None [] (mkFields JNaN)) JNaN).
  reflexivity.
Defined.

(** ** The two versions of the mixin *)

Section Versions.
Context {X6 X7 : Type}.
Variable cls6 : ClassTable X6.
Variable cls7 : ClassTable X7.

Lemma renderHelper_versions_step (h6 : Host X6) (h7 : Host X7) :
  same_template cls6 cls7 (fields h6) (fields h7) ->
  same_dom h6 h7 ->
  fst (Mixin006.renderHelper cls6 h6) = fst (Mixin007.renderHelper cls7 h7)
  /\ same_dom (snd (Mixin006.renderHelper cls6 h6)) (snd (Mixin007.renderHelper cls7 h7)).
Proof.
  intros Ht [Hr He]. destruct (shadowRoot h6) as [r|] eqn:E6.
  - rewrite (renderHelper006_present cls6 h6 r E6).
    rewrite (renderHelper007_present cls7 h7 r (eq_sym Hr)).
    split; [reflexivity|]. split; cbn; congruence.
  - rewrite (renderHelper006_absent cls6 h6 E6).
    rewrite (renderHelper007_absent cls7 h7 (eq_sym Hr)). cbv zeta.
    rewrite Ht, He.
    destruct (template_of cls7 Mixin007.template _); split; try reflexivity;
      split; reflexivity.
Qed.

Lemma renderHelper_versions_calls (n : nat) :
  forall (h6 : Host X6) (h7 : Host X7),
    same_template cls6 cls7 (fields h6) (fields h7) ->
    same_dom h6 h7 ->
    fst (call_times (Mixin006.renderHelper cls6) n h6)
    = fst (call_times (Mixin007.renderHelper cls7) n h7)
    /\ same_dom (snd (call_times (Mixin006.renderHelper cls6) n h6))
                (snd (call_times (Mixin007.renderHelper cls7) n h7)).
Proof.
  induction n as [|k IH]; intros h6 h7 Ht Hd; cbn [call_times]; [split; [reflexivity|exact Hd]|].
  destruct (renderHelper_versions_step h6 h7 Ht Hd) as [H1 H2].
  pose proof (renderHelper006_fields cls6 h6) as F6.
  pose proof (renderHelper007_fields cls7 h7) as F7.
  destruct (Mixin006.renderHelper cls6 h6) as [c6 k6].
  destruct (Mixin007.renderHelper cls7 h7) as [c7 k7].
  cbn in H1, H2, F6, F7.
  assert (Ht' : same_template cls6 cls7 (fields k6) (fields k7)) by (rewrite F6, F7; exact Ht).
  destruct (IH k6 k7 Ht' H2) as [I1 I2].
  destruct (call_times (Mixin006.renderHelper cls6) k k6) as [rs6 e6].
  destruct (call_times (Mixin007.renderHelper cls7) k k7) as [rs7 e7].
  cbn in *. split; [congruence|exact I2].
Qed.

End Versions.

(** C10. Take a host whose class supplies a template under the public name
    [template] and a host whose class supplies the same template under the
    shared symbol, both in the same DOM state.  Any number of calls of the
    006 [renderHelper] on the first and of the 007 [renderHelper] on the
    second return the same sequence of results and leave the same shadow root
    and the same trace of DOM calls. *)
Theorem renderHelper_006_007_equivalent :
  forall (X6 X7 : Type) (cls6 : ClassTable X6) (cls7 : ClassTable X7)
         (h6 : Host X6) (h7 : Host X7) (n : nat),
    same_template cls6 cls7 (fields h6) (fields h7) ->
    same_dom h6 h7 ->
    fst (call_times (Mixin006.renderHelper cls6) n h6)
    = fst (call_times (Mixin007.renderHelper cls7) n h7)
    /\ shadowRoot (snd (call_times (Mixin006.renderHelper cls6) n h6))
       = shadowRoot (snd (call_times (Mixin007.renderHelper cls7) n h7))
    /\ effects (snd (call_times (Mixin006.renderHelper cls6) n h6))
       = effects (snd (call_times (Mixin007.renderHelper cls7) n h7)).
Proof.
  intros X6 X7 cls6 cls7 h6 h7 n Ht Hd.
  destruct (renderHelper_versions_calls cls6 cls7 n h6 h7 Ht Hd) as [H1 [H2 H3]].
  repeat split; assumption.
Qed.

Lemma renderHelper_006_007_equivalent_witness :
  fst (call_times (Mixin006.renderHelper (class_table index_html)) 3 constructor)
  = fst (call_times (Mixin007.renderHelper symbol_class_table) 3
           (mkHost None [Log "SpinBox constructor called"] tt))
  /\ shadowRoot
       (snd (call_times (Mixin006.renderHelper (class_table index_html)) 3 constructor))
     = shadowRoot
         (snd (call_times (Mixin007.renderHelper symbol_class_table) 3
                 (mkHost None [Log "SpinBox constructor called"] tt)))
  /\ effects
       (snd (call_times (Mixin006.renderHelper (class_table index_html)) 3 constructor))
     = effects
         (snd (call_times (Mixin007.renderHelper symbol_class_table) 3
                 (mkHost None [Log "SpinBox constructor called"] tt))).
Proof.
  apply (renderHelper_006_007_equivalent _ _ (class_table index_html) symbol_class_table
           constructor (mkHost None [Log "SpinBox constructor called"] tt) 3).
  - intros r e. reflexivity.
  - split; reflexivity.
Defined.

(** * Further properties *)

(** ** [parseInt] reads back what [ToString] prints *)









Lemma parseInt_no_number (s : string) :
  starts_no_number s = true -> parseInt s = JNaN.
Proof.
  unfold starts_no_number, parseInt.
  destruct (strip_sign (trim_start s)) as [sg s1]. cbn [snd].
  destruct s1 as [|c r]; [reflexivity|].
  destruct c as [[] [] [] [] [] [] [] []]; cbn; intros H;
    solve [reflexivity | discriminate H].
Qed.

(** ** Attribute texts *)


Lemma attributeChangedCallback_value (doc : Document) (o n : option string) (h : SpinBox) :
  attributeChangedCallback doc "value" o n h
  = set_value doc (parseInt (attribute_text n))
      (mkHost (shadowRoot h)
         (Log "SpinBox attributes changed: attributeChangedCallback" :: effects h)
         (fields h)).
Proof. reflexivity. Qed.



(** X2. An attribute text that, after white space and a sign, does not start
    with a decimal digit, and the removal of the attribute (the callback
    then gets [null]), make [value] [NaN] whatever the element held, and
    [render] is called each time, also when the value was [NaN] already. *)
Theorem attribute_without_number :
  forall (doc : Document) (h : SpinBox) (oldValue newValue : option string),
    starts_no_number (attribute_text newValue) = true ->
    let r := attributeChangedCallback doc "value" oldValue newValue h in
    value (snd r) = JNaN
    /\ renders (snd r) = S (renders h)
    /\ shadowRoot (snd r) <> None
    /\ starts_no_number (attribute_text None) = true.
Proof.
  intros doc h o n Hn r. unfold r.
  rewrite attributeChangedCallback_value, (parseInt_no_number _ Hn), set_value_eq.
  set (hl := mkHost (shadowRoot h)
               (Log "SpinBox attributes changed: attributeChangedCallback" :: effects h)
               (fields h)).
  cbn [strict_equal].
  destruct (render_adds doc (mkHost (shadowRoot hl) (effects hl) (mkFields JNaN)))
    as [H1 H2 H3 _ _ _ _].
  split; [unfold value; rewrite H2; reflexivity|].
  split; [exact H3|]. split; [exact H1|reflexivity].
Qed.

Lemma attribute_without_number_witness :
  value (snd (attributeChangedCallback index_html "value" (Some "7") None
                (mkHost None [] (mkFields (JNum 7))))) = JNaN.
Proof.
  apply (attribute_without_number index_html (mkHost None [] (mkFields (JNum 7)))
           (Some "7") None).
  reflexivity.
Defined.

(** ** What the events leave alone in the shadow tree *)

Lemma update_element_twice (r : Fragment) (id : string) (f g : Node -> Node) :
  (forall n, n_id (f n) = n_id n) ->
  update_element (update_element r id f) id g = update_element r id (fun n => g (f n)).
Proof.
  intros Hf. induction r as [|n rest IH]; cbn; [reflexivity|].
  destruct (String.eqb (n_id n) id) eqn:E; cbn.
  - rewrite Hf, E. reflexivity.
  - rewrite E, IH. reflexivity.
Qed.

Lemma update_element_ext (r : Fragment) (id : string) (f g : Node -> Node) :
  (forall n, f n = g n) -> update_element r id f = update_element r id g.
Proof.
  intros Hfg. induction r as [|n rest IH]; cbn; [reflexivity|].
  rewrite Hfg, IH. reflexivity.
Qed.

Lemma project_twice (r : Fragment) (t u : string) :
  update_element (update_element r "input" (with_text t)) "input" (with_text u)
  = update_element r "input" (with_text u).
Proof.
  rewrite update_element_twice by reflexivity.
  apply update_element_ext. reflexivity.
Qed.

Lemma blank_with_text (r : Fragment) (t : string) :
  blank (update_element r "input" (with_text t)) = blank r.
Proof. apply project_twice. Qed.

Lemma listeners_at_with_text (r : Fragment) (t id : string) :
  listeners_at (update_element r "input" (with_text t)) id = listeners_at r id.
Proof.
  unfold listeners_at. destruct (String.eqb "input" id) eqn:E.
  - apply String.eqb_eq in E. subst id.
    rewrite getElementById_update_same by reflexivity.
    destruct (getElementById r "input"); reflexivity.
  - rewrite getElementById_update_other by (reflexivity || exact E). reflexivity.
Qed.

Lemma listeners_at_blank (r : Fragment) (id : string) :
  listeners_at (blank r) id = listeners_at r id.
Proof. apply listeners_at_with_text. Qed.

(** A property of the element that [render] keeps, that does not look at
    the trace or at the fields, and that a new text in the display element
    does not disturb, is kept by every event. *)
Section Preservation.
Variable doc : Document.
Variable P : SpinBox -> Prop.
Hypothesis P_render : forall h, P h -> P (snd (render doc h)).
Hypothesis P_frame : forall sr e f e' f', P (mkHost sr e f) -> P (mkHost sr e' f').
Hypothesis P_text :
  forall r e f t,
    P (mkHost (Some r) e f) -> P (mkHost (Some (update_element r "input" (with_text t))) e f).

Lemma kept_by_host_call {A} (m : Method A) (h : SpinBox) :
  P (snd (m h)) -> P (host_call m h).
Proof.
  unfold host_call. destruct (m h) as [[a|e] [sr tr f]]; cbn; [exact (fun x => x)|].
  apply P_frame.
Qed.

Lemma kept_by_set_value (v : jsval) (h : SpinBox) :
  P h -> P (snd (set_value doc v h)).
Proof.
  intros Hp. rewrite set_value_eq. destruct (strict_equal v (value h)); [exact Hp|].
  apply P_render. destruct h as [sr tr f]. revert Hp. apply P_frame.
Qed.

Lemma kept_by_run_listener (l : Listener) (h : SpinBox) :
  P h -> P (snd (run_listener doc l h)).
Proof.
  destruct l; cbn; [exact (fun x => x)| |]; apply kept_by_set_value.
Qed.

Lemma kept_by_run_listeners (ls : list (string * Listener)) (type : string) :
  forall h, P h -> P (run_listeners doc ls type h).
Proof.
  induction ls as [|[t l] rest IH]; intros h Hp; cbn; [exact Hp|].
  destruct (String.eqb t type); [|apply IH, Hp].
  apply IH, kept_by_host_call, kept_by_run_listener, Hp.
Qed.

Lemma kept_by_step (e : HostEvent) (h : SpinBox) :
  P h -> P (step doc h e).
Proof.
  intros Hp. destruct e; unfold step.
  - apply kept_by_host_call. unfold connectedCallback, bind, console_log, emit.
    apply P_render. destruct h as [sr tr f]. revert Hp. apply P_frame.
  - apply kept_by_host_call. destruct h as [sr tr f]. revert Hp. apply P_frame.
  - apply kept_by_host_call. destruct h as [sr tr f]. revert Hp. apply P_frame.
  - destruct (existsb (String.eqb name) observedAttributes); [|exact Hp].
    apply kept_by_host_call.
    unfold attributeChangedCallback, bind, console_log, emit.
    assert (Hp' : P (mkHost (shadowRoot h)
                       (Log "SpinBox attributes changed: attributeChangedCallback" :: effects h)
                       (fields h)))
      by (destruct h as [sr tr f]; revert Hp; apply P_frame).
    destruct (String.eqb name "value"); [|exact Hp'].
    apply kept_by_set_value, Hp'.
  - apply kept_by_host_call, kept_by_set_value, Hp.
  - apply kept_by_host_call, P_render, Hp.
  - unfold type_text. destruct h as [[r|] tr f]; [|exact Hp].
    apply kept_by_run_listeners. cbn. apply P_text, Hp.
  - apply kept_by_run_listeners, Hp.
Qed.

Lemma kept_by_run (events : list HostEvent) :
  forall h, P h -> P (run doc events h).
Proof.
  induction events as [|e rest IH]; intros h Hp; cbn; [exact Hp|].
  apply IH, kept_by_step, Hp.
Qed.

End Preservation.

Lemma listeners_of_at (id : string) (h : SpinBox) :
  listeners_of id h
  = match shadowRoot h with
    | Some r => match listeners_at r id with Some l => l | None => [] end
    | None => []
    end.
Proof.
  unfold listeners_of, listeners_at. destruct (shadowRoot h) as [r|]; [|reflexivity].
  destruct (getElementById r id); reflexivity.
Qed.

Lemma render_keeps_blank (doc : Document) (b0 : Fragment) (h : SpinBox) :
  (exists r, shadowRoot h = Some r /\ blank r = b0) ->
  exists r, shadowRoot (snd (render doc h)) = Some r /\ blank r = b0.
Proof.
  intros (r & Hr & Hb). rewrite (render_present doc h r Hr), project_eq. cbn.
  destruct (getElementById r "input"); cbn.
  - eexists. split; [reflexivity|]. rewrite blank_with_text. exact Hb.
  - exists r. split; [reflexivity|exact Hb].
Qed.

(** X3. Once an element has a shadow tree, no event changes it except for
    the text of the display element: the elements, the listeners they carry
    and every other text stay as they are, whatever the page and whatever
    sequence of events follows.  In particular a listener is never added or
    removed after the first render. *)
Theorem shadow_tree_is_stable :
  forall (doc : Document) (events : list HostEvent) (h : SpinBox) (r : Fragment),
    shadowRoot h = Some r ->
    exists r',
      shadowRoot (run doc events h) = Some r'
      /\ blank r' = blank r
      /\ forall id, listeners_of id (run doc events h) = listeners_of id h.
Proof.
  intros doc events h r Hr.
  assert (Hk : exists r', shadowRoot (run doc events h) = Some r' /\ blank r' = blank r).
  { apply (kept_by_run doc
             (fun s => exists r', shadowRoot s = Some r' /\ blank r' = blank r)).
    - apply render_keeps_blank.
    - intros sr e f e' f' H. exact H.
    - intros r0 e f t (r1 & H1 & H2). cbn in H1. injection H1 as <-.
      eexists. split; [reflexivity|]. rewrite blank_with_text. exact H2.
    - exists r. split; [exact Hr|reflexivity]. }
  destruct Hk as (r' & Hr' & Hb). exists r'. split; [exact Hr'|]. split; [exact Hb|].
  intros id. rewrite !listeners_of_at, Hr, Hr'.
  rewrite <- (listeners_at_blank r' id), <- (listeners_at_blank r id), Hb. reflexivity.
Qed.

Lemma shadow_tree_is_stable_witness :
  exists r',
    shadowRoot (run index_html [MouseDown "upButton"; TextEntered "9"; Connected]
                  (run index_html [Connected] constructor)) = Some r'
    /\ blank r' = blank attached_tree
    /\ forall id,
         listeners_of id (run index_html [MouseDown "upButton"; TextEntered "9"; Connected]
                            (run index_html [Connected] constructor))
         = listeners_of id (run index_html [Connected] constructor).
Proof.
  apply (shadow_tree_is_stable index_html). reflexivity.
Defined.

(** ** The buttons and the display element *)

Lemma wired_root_with_text (r : Fragment) (t : string) :
  wired_root r -> wired_root (update_element r "input" (with_text t)).
Proof.
  unfold wired_root. rewrite !listeners_at_with_text. exact (fun x => x).
Qed.

Lemma wired_render (doc : Document) (h : SpinBox) :
  supplies_template doc = true -> wired h -> wired (snd (render doc h)).
Proof.
  intros Hdoc Hw. unfold wired in *. destruct (shadowRoot h) as [r|] eqn:Hr.
  - rewrite (render_present doc h r Hr), project_eq. cbn.
    destruct (getElementById r "input"); cbn; [apply wired_root_with_text|]; exact Hw.
  - destruct (first_render doc h Hdoc Hr) as (r & Heq & _ & G1 & G2 & G3).
    rewrite Heq. cbn. repeat split; assumption.
Qed.

Lemma wired_reachable (doc : Document) (events : list HostEvent) :
  supplies_template doc = true -> wired (run doc events constructor).
Proof.
  intros Hdoc. apply (kept_by_run doc wired).
  - intros h. apply wired_render, Hdoc.
  - intros sr e f e' f' H. exact H.
  - intros r e f t H. apply wired_root_with_text, H.
  - exact I.
Qed.



Lemma wired_root_input (r : Fragment) :
  wired_root r -> exists n, getElementById r "input" = Some n.
Proof.
  intros (H & _). unfold listeners_at in H.
  destruct (getElementById r "input") as [n|]; [exists n; reflexivity|discriminate].
Qed.


Lemma displayed_with_text (r : Fragment) (t : string) (e : list effect) (f : Fields) :
  (exists n, getElementById r "input" = Some n) ->
  displayed "input" (mkHost (Some (update_element r "input" (with_text t))) e f) = Some t.
Proof.
  intros (n & Hn). unfold displayed. cbn.
  rewrite getElementById_update_same by reflexivity. rewrite Hn. reflexivity.
Qed.





(** X6. On a page that supplies the template, once the element has been
    rendered, whatever has happened to it since: text typed into the display
    element is shown there and goes no further.  The [input] listener throws
    its [ReferenceError], [value] keeps what it held and no [render] runs,
    so the display and [value] disagree until the next accepted write. *)
Theorem typed_text_stays_in_the_display :
  forall (doc : Document) (events : list HostEvent) (text : string),
    supplies_template doc = true ->
    shadowRoot (run doc events constructor) <> None ->
    let h := run doc events constructor in
    let h' := step doc h (TextEntered text) in
    value h' = value h
    /\ displayed "input" h' = Some text
    /\ effects h' = Uncaught (ReferenceError "inputElem") :: effects h.
Proof.
  intros doc events text Hdoc Hroot h h'.
  pose proof (wired_reachable doc events Hdoc) as Hw. fold h in Hw, Hroot.
  unfold wired in Hw. destruct (shadowRoot h) as [r|] eqn:Hr; [|congruence].
  assert (Heq : h' = mkHost (Some (update_element r "input" (with_text text)))
                       (Uncaught (ReferenceError "inputElem") :: effects h) (fields h)).
  { unfold h', step, type_text, dispatchEvent. rewrite Hr, listeners_of_at.
    cbn [shadowRoot].
    destruct (wired_root_with_text r text Hw) as (Hi & _). rewrite Hi. reflexivity. }
  rewrite Heq. split; [reflexivity|]. split; [|reflexivity].
  apply displayed_with_text, wired_root_input, Hw.
Qed.

Lemma typed_text_stays_in_the_display_witness :
  value (step index_html (run index_html [Connected; MouseDown "upButton"] constructor)
           (TextEntered "42")) = JNum 1.
Proof.
  apply (typed_text_stays_in_the_display index_html [Connected; MouseDown "upButton"] "42").
  - reflexivity.
  - discriminate.
Defined.

(** ** Pages that break the contract of the template *)

Lemma listeners_at_with_listener_other (r : Fragment) (id id' type : string) (l : Listener) :
  String.eqb id id' = false ->
  listeners_at (update_element r id (with_listener type l)) id' = listeners_at r id'.
Proof.
  intros E. unfold listeners_at.
  rewrite getElementById_update_other by (reflexivity || exact E). reflexivity.
Qed.

Lemma listeners_at_importNode (c : Fragment) (id : string) :
  listeners_at (importNode c) id = None \/ listeners_at (importNode c) id = Some [].
Proof.
  unfold listeners_at. rewrite getElementById_importNode.
  destruct (getElementById c id); [right|left]; reflexivity.
Qed.

Lemma unwired_render (doc : Document) (h : SpinBox) :
  (forall c, document_getElementById doc "spinBoxTemplate" = Some c ->
             has_element c "upButton" = false) ->
  listeners_of "downButton" h = [] ->
  listeners_of "downButton" (snd (render doc h)) = [].
Proof.
  intros Hdoc Hl. rewrite listeners_of_at in *. destruct (shadowRoot h) as [r|] eqn:Hr.
  - rewrite (render_present doc h r Hr), project_eq. cbn [shadowRoot].
    destruct (getElementById r "input"); cbn [snd shadowRoot].
    + rewrite listeners_at_with_text. exact Hl.
    + exact Hl.
  - rewrite (render_absent doc h Hr).
    destruct (document_getElementById doc "spinBoxTemplate") as [c|] eqn:Hc;
      [|reflexivity].
    specialize (Hdoc c eq_refl). unfold has_element in Hdoc.
    pose proof (getElementById_importNode c "upButton") as Gu.
    destruct (getElementById c "upButton"); [discriminate|]. cbn in Gu.
    assert (Hd : match listeners_at (importNode c) "downButton" with
                 | Some l => l
                 | None => []
                 end = []).
    { destruct (listeners_at_importNode c "downButton") as [-> | ->]; reflexivity. }
    unfold bind, componentFirstRender, addEventListener, bind, emit, console_log, emit,
      this_shadowRoot, replace_root, throw.
    cbn [shadowRoot effects fields fst snd].
    destruct (getElementById (importNode c) "input"); cbn [shadowRoot effects fields fst snd].
    + rewrite getElementById_update_other, Gu by reflexivity.
      cbn [shadowRoot effects fields fst snd].
      rewrite listeners_at_with_listener_other by reflexivity. exact Hd.
    + exact Hd.
Qed.

(** X7. On a page whose template has no element [upButton] (or that has no
    template at all) the first render throws before it reaches the down
    button, and nothing ever comes back to it: whatever events follow, the
    down button carries no listener. *)
Theorem down_button_never_wired_without_up_button :
  forall (doc : Document) (events : list HostEvent),
    (forall c, document_getElementById doc "spinBoxTemplate" = Some c ->
               has_element c "upButton" = false) ->
    listeners_of "downButton" (run doc events constructor) = [].
Proof.
  intros doc events Hdoc.
  apply (kept_by_run doc (fun h => listeners_of "downButton" h = [])).
  - intros h. apply unwired_render, Hdoc.
  - intros sr e f e' f' H. exact H.
  - intros r e f t H. rewrite listeners_of_at in *. cbn [shadowRoot] in *.
    rewrite listeners_at_with_text. exact H.
  - reflexivity.
Qed.

Lemma down_button_never_wired_without_up_button_witness :
  listeners_of "downButton"
    (run no_upButton_html [Connected; CallRender; MouseDown "downButton"; Connected]
       constructor) = [].
Proof.
  apply (down_button_never_wired_without_up_button no_upButton_html).
  intros c [= <-]. reflexivity.
Defined.

(** X8. When the page has no [spinBoxTemplate] at the first render, that
    render attaches an empty shadow root and throws; the root then being
    there, no later render looks for the template again, even on a page that
    has one by then: each throws for the missing display element and leaves
    the shadow root empty. *)
Theorem missing_template_is_not_recovered :
  forall (doc doc' : Document) (h : SpinBox),
    shadowRoot h = None ->
    document_getElementById doc "spinBoxTemplate" = None ->
    let h1 := snd (render doc h) in
    fst (render doc h) = Throw (TypeError "templateElement")
    /\ shadowRoot h1 = Some []
    /\ fst (render doc' h1) = Throw (TypeError "input")
    /\ shadowRoot (snd (render doc' h1)) = Some []
    /\ subtrees_created (snd (render doc' h1)) = S (subtrees_created h).
Proof.
  intros doc doc' h Hr Hdoc h1. unfold h1.
  rewrite (render_absent doc h Hr), Hdoc. cbn [fst snd].
  set (h2 := mkHost (Some []) (AttachShadow :: Invoke "render" :: effects h) (fields h)).
  rewrite (render_present doc' h2 [] eq_refl), project_eq. cbn.
  repeat split.
Qed.

Lemma missing_template_is_not_recovered_witness :
  fst (render index_html (snd (render [] constructor))) = Throw (TypeError "input").
Proof.
  apply (missing_template_is_not_recovered [] index_html constructor); reflexivity.
Defined.

(** ** The mixin never attaches twice *)


(** ** Rendering again *)

Lemma update_element_noop (r : Fragment) (id : string) (f : Node -> Node) :
  (forall n, getElementById r id = Some n -> f n = n) -> update_element r id f = r.
Proof.
  induction r as [|n rest IH]; cbn; [reflexivity|].
  destruct (String.eqb (n_id n) id); intros H.
  - rewrite (H n eq_refl). reflexivity.
  - rewrite (IH H). reflexivity.
Qed.

(** X10. Calling [render] a second time changes nothing in the shadow tree
    or the value, and ends the way the first call of the two did, when the
    element already had a shadow root before the first call or the page
    supplies the template. *)
Theorem render_twice :
  forall (doc : Document) (h : SpinBox),
    shadowRoot h <> None \/ supplies_template doc = true ->
    let h1 := snd (render doc h) in
    shadowRoot (snd (render doc h1)) = shadowRoot h1
    /\ fields (snd (render doc h1)) = fields h1
    /\ fst (render doc h1) = fst (render doc h).
Proof.
  intros doc h Hor h1.
  assert (Hsecond : forall r e f,
            (getElementById r "input" = None \/
             exists r0, r = update_element r0 "input" (with_text (ToString (_value f)))) ->
            shadowRoot (snd (render doc (mkHost (Some r) e f))) = Some r
            /\ fields (snd (render doc (mkHost (Some r) e f))) = f
            /\ fst (render doc (mkHost (Some r) e f))
               = match getElementById r "input" with
                 | Some _ => Normal tt
                 | None => Throw (TypeError "input")
                 end).
  { intros r e f Hcase. rewrite (render_present doc (mkHost (Some r) e f) r eq_refl), project_eq.
    cbn.
    destruct (getElementById r "input") eqn:Hi; cbn; [|repeat split].
    destruct Hcase as [Hc|(r0 & ->)]; [discriminate|].
    unfold value. cbn. rewrite project_twice. repeat split. }
  destruct (shadowRoot h) as [r|] eqn:Hr.
  - unfold h1. rewrite (render_present doc h r Hr), project_eq.
    cbn [shadowRoot effects fields]. change (value (mkHost (Some r) _ (fields h))) with (value h).
    destruct (getElementById r "input") eqn:Hi; cbn [fst snd].
    + destruct (Hsecond (update_element r "input" (with_text (ToString (value h))))
                  (WriteValue "input" (ToString (value h)) :: Invoke "render" :: effects h)
                  (fields h)) as (S1 & S2 & S3).
      { right. exists r. reflexivity. }
      rewrite S1, S2, S3. rewrite getElementById_update_same, Hi by reflexivity.
      repeat split.
    + destruct (Hsecond r (Invoke "render" :: effects h) (fields h)) as (S1 & S2 & S3).
      { left. exact Hi. }
      rewrite S1, S2, S3, Hi. repeat split.
  - destruct Hor as [Hor|Hdoc]; [congruence|].
    destruct (first_render doc h Hdoc Hr) as (r & Heq & Htext & _).
    unfold h1. rewrite Heq. cbn [fst snd].
    pose proof (wired_render doc h Hdoc) as Hw. unfold wired in Hw.
    rewrite Hr, Heq in Hw. cbn in Hw. specialize (Hw I).
    destruct (wired_root_input r Hw) as (n & Hn).
    match goal with
    | |- context [render doc ?x] => rewrite (render_present doc x r eq_refl)
    end.
    rewrite project_eq. cbn. rewrite Hn. cbn.
    split; [|repeat split].
    f_equal. apply update_element_noop. intros n0 Hn0.
    rewrite Hn0 in Htext. cbn in Htext. injection Htext as Htext.
    unfold value in *. cbn [fields] in *. rewrite <- Htext. destruct n0; reflexivity.
Qed.

Lemma render_twice_witness :
  shadowRoot (snd (render index_html (snd (render index_html constructor))))
  = shadowRoot (snd (render index_html constructor)).
Proof.
  apply (render_twice index_html constructor). right. reflexivity.
Defined.

(** ** Progression 005 against 006 *)

Lemma renderHelper005_eq (doc : Document) (h : SpinBox) :
  SpinBox005.renderHelper doc h = Mixin006.renderHelper (class_table doc) h.
Proof.
  destruct h as [[r|] e f]; [reflexivity|].
  unfold SpinBox005.renderHelper, Mixin006.renderHelper, bind, this, attachShadow,
    get_property, template_of, class_table, template.
  cbn. destruct (document_getElementById doc "spinBoxTemplate"); reflexivity.
Qed.

Lemma render005_eq (doc : Document) (h : SpinBox) :
  SpinBox005.render doc h = render doc h.
Proof.
  unfold SpinBox005.render, render, bind at 1 2 4 5, emit. cbv beta iota.
  rewrite renderHelper005_eq. reflexivity.
Qed.

(** A class whose [render] and [connectedCallback] are those of 006 behaves
    as 006 under every event. *)
Section SameMethods.
Variable doc : Document.
Variable render' : Method unit.
Variable connectedCallback' : Method unit.
Hypothesis render_eq : forall h, render' h = render doc h.
Hypothesis connected_eq : forall h, connectedCallback' h = connectedCallback doc h.

Lemma set_value_of_eq (v : jsval) (h : SpinBox) :
  set_value_of render' v h = set_value doc v h.
Proof.
  unfold set_value_of, set_value, bind, this, store_value.
  destruct (strict_not_equal v (value h)); [apply render_eq|reflexivity].
Qed.

Lemma host_call_eq {A} (m m' : Method A) (h : SpinBox) :
  m h = m' h -> host_call m h = host_call m' h.
Proof. unfold host_call. intros ->. reflexivity. Qed.

Lemma run_listener_of_eq (l : Listener) (h : SpinBox) :
  run_listener_of render' l h = run_listener doc l h.
Proof.
  destruct l; [reflexivity| |];
    unfold run_listener_of, run_listener, bind, get_value; apply set_value_of_eq.
Qed.

Lemma run_listeners_of_eq (ls : list (string * Listener)) (type : string) :
  forall h, run_listeners_of render' ls type h = run_listeners doc ls type h.
Proof.
  induction ls as [|[t l] rest IH]; intros h; cbn; [reflexivity|].
  destruct (String.eqb t type); [|apply IH].
  rewrite (host_call_eq _ _ h (run_listener_of_eq l h)). apply IH.
Qed.

Lemma step_of_eq (h : SpinBox) (e : HostEvent) :
  step_of render' connectedCallback' h e = step doc h e.
Proof.
  destruct e; unfold step_of, step.
  - apply host_call_eq, connected_eq.
  - reflexivity.
  - reflexivity.
  - destruct (existsb (String.eqb name) observedAttributes); [|reflexivity].
    apply host_call_eq.
    unfold attributeChangedCallback_of, attributeChangedCallback, bind, console_log, emit.
    destruct (String.eqb name "value"); [apply set_value_of_eq|reflexivity].
  - apply host_call_eq, set_value_of_eq.
  - apply host_call_eq, render_eq.
  - unfold type_text_of, type_text, dispatchEvent_of, dispatchEvent.
    destruct (shadowRoot h); [apply run_listeners_of_eq|reflexivity].
  - apply run_listeners_of_eq.
Qed.

Lemma run_of_eq (events : list HostEvent) :
  forall h, run_of render' connectedCallback' events h = run doc events h.
Proof.
  induction events as [|e rest IH]; intros h; cbn; [reflexivity|].
  rewrite step_of_eq. apply IH.
Qed.

End SameMethods.

(** X11. Moving [renderHelper] out of the class of 005 into the mixin of 006
    changed nothing: on every page, from every state and under every
    sequence of events the element of 005 and the element of 006 end in the
    same state, shadow tree, value, console lines and DOM calls alike. *)
Theorem progression_005_is_006 :
  forall (doc : Document) (events : list HostEvent) (h : SpinBox),
    SpinBox005.run doc events h = SpinBox.run doc events h
    /\ SpinBox005.renderHelper doc h = Mixin006.renderHelper (class_table doc) h.
Proof.
  intros doc events h. split; [|apply renderHelper005_eq].
  apply run_of_eq.
  - apply render005_eq.
  - intros h0. unfold SpinBox005.connectedCallback, connectedCallback, bind, console_log, emit.
    apply render005_eq.
Qed.

(** ** Progressions 004 and 003 against 006 *)

(** A relation between an element of an earlier version and one of 006 that
    holds only between elements with the same shadow tree and value, that
    does not look at the traces, and that the two [render]s keep, is kept by
    every event but attachment. *)
Section SameView.
Variable doc : Document.
Variable render' : Method unit.
Variable Q : SpinBox -> SpinBox -> Prop.
Hypothesis Q_view : forall a b, Q a b -> same_view a b.
Hypothesis Q_frame :
  forall a b e1 e2,
    Q a b -> Q (mkHost (shadowRoot a) e1 (fields a)) (mkHost (shadowRoot b) e2 (fields b)).
Hypothesis Q_store :
  forall a b v,
    Q a b ->
    Q (mkHost (shadowRoot a) (effects a) (mkFields v))
      (mkHost (shadowRoot b) (effects b) (mkFields v)).
Hypothesis Q_text :
  forall a b r t,
    Q a b -> shadowRoot a = Some r ->
    Q (mkHost (Some (update_element r "input" (with_text t))) (effects a) (fields a))
      (mkHost (Some (update_element r "input" (with_text t))) (effects b) (fields b)).
Hypothesis Q_render : forall a b, Q a b -> Q (snd (render' a)) (snd (render doc b)).

Lemma Q_eta (a b : SpinBox) :
  Q a b -> Q (mkHost (shadowRoot a) (effects a) (fields a))
             (mkHost (shadowRoot b) (effects b) (fields b)).
Proof. destruct a, b. exact (fun x => x). Qed.

Lemma related_host_call {A B} (m : Method A) (m' : Method B) (a b : SpinBox) :
  Q (snd (m a)) (snd (m' b)) -> Q (host_call m a) (host_call m' b).
Proof.
  unfold host_call.
  destruct (m a) as [[x|e] [sa ea fa]], (m' b) as [[y|e'] [sb eb fb]]; cbn;
    intros H; try exact H.
  - exact (Q_frame _ _ ea (Uncaught e' :: eb) H).
  - exact (Q_frame _ _ (Uncaught e :: ea) eb H).
  - exact (Q_frame _ _ (Uncaught e :: ea) (Uncaught e' :: eb) H).
Qed.

Lemma related_set_value (v : jsval) (a b : SpinBox) :
  Q a b -> Q (snd (set_value_of render' v a)) (snd (set_value doc v b)).
Proof.
  intros H. destruct (Q_view a b H) as [_ Hf].
  unfold set_value_of, set_value, bind, this, store_value, value. rewrite Hf.
  destruct (strict_not_equal v (_value (fields b))); [|exact H].
  apply Q_render, Q_store, H.
Qed.

Lemma related_run_listener (l : Listener) (a b : SpinBox) :
  Q a b -> Q (snd (run_listener_of render' l a)) (snd (run_listener doc l b)).
Proof.
  intros H. destruct (Q_view a b H) as [_ Hf].
  destruct l; [exact H| |];
    unfold run_listener_of, run_listener, bind, get_value, value; rewrite Hf;
    apply related_set_value, H.
Qed.

Lemma related_run_listeners (ls : list (string * Listener)) (type : string) :
  forall a b, Q a b -> Q (run_listeners_of render' ls type a) (run_listeners doc ls type b).
Proof.
  induction ls as [|[t l] rest IH]; intros a b H; cbn; [exact H|].
  destruct (String.eqb t type); [|apply IH, H].
  apply IH, related_host_call, related_run_listener, H.
Qed.

Lemma related_dispatch (id type : string) (a b : SpinBox) :
  Q a b -> Q (dispatchEvent_of render' id type a) (dispatchEvent doc id type b).
Proof.
  intros H. destruct (Q_view a b H) as [Hs _].
  unfold dispatchEvent_of, dispatchEvent. rewrite !listeners_of_at, Hs.
  apply related_run_listeners, H.
Qed.

Lemma related_step (c' : Method unit) (e : HostEvent) (a b : SpinBox) :
  e <> Connected ->
  Q a b -> Q (step_of render' c' a e) (step doc b e).
Proof.
  intros He H. destruct e; unfold step_of, step; [congruence|..].
  - apply related_host_call. cbn. apply Q_frame, H.
  - apply related_host_call. cbn. apply Q_frame, H.
  - destruct (existsb (String.eqb name) observedAttributes); [|exact H].
    apply related_host_call.
    unfold attributeChangedCallback_of, attributeChangedCallback, bind, console_log, emit.
    destruct (String.eqb name "value"); [|cbn; apply Q_frame, H].
    apply related_set_value, Q_frame, H.
  - apply related_host_call, related_set_value, H.
  - apply related_host_call, Q_render, H.
  - destruct (Q_view a b H) as [Hs _].
    unfold type_text_of, type_text. rewrite <- Hs.
    destruct (shadowRoot a) as [r|] eqn:Hr; [|exact H].
    apply related_dispatch, Q_text; assumption.
  - apply related_dispatch, H.
Qed.

Lemma related_run (c' : Method unit) (events : list HostEvent) :
  (In Connected events ->
   forall a b, Q a b -> Q (snd (c' a)) (snd (connectedCallback doc b))) ->
  forall a b, Q a b -> Q (run_of render' c' events a) (run doc events b).
Proof.
  induction events as [|e rest IH]; intros Hc a b H; cbn; [exact H|].
  apply IH; [intros Hin; apply Hc; right; exact Hin|].
  destruct e; try (apply related_step; [discriminate|exact H]).
  unfold step_of, step. apply related_host_call, Hc; [left; reflexivity|exact H].
Qed.

End SameView.

Lemma same_view_frame (a b : SpinBox) (e1 e2 : list effect) :
  same_view a b ->
  same_view (mkHost (shadowRoot a) e1 (fields a)) (mkHost (shadowRoot b) e2 (fields b)).
Proof. exact (fun x => x). Qed.

Lemma render004_present (doc : Document) (h : SpinBox) (r : Fragment) :
  shadowRoot h = Some r ->
  SpinBox004.render doc h
  = project (mkHost (Some r) (Invoke "render" :: effects h) (fields h)).
Proof.
  destruct h as [sr e f]; cbn; intros ->. reflexivity.
Qed.

Lemma render004_absent (doc : Document) (h : SpinBox) :
  shadowRoot h = None ->
  SpinBox004.render doc h =
    match document_getElementById doc "spinBoxTemplate" with
    | Some c =>
        ((addEventListener "input" "input" input_listener ;;
          addEventListener "upButton" "mousedown" upButton_listener ;;
          addEventListener "downButton" "mousedown" downButton_listener) ;;
         project)
          (mkHost (Some (importNode c))
                  (AppendChild :: AttachShadow :: Invoke "render" :: effects h)
                  (fields h))
    | None =>
        (Throw (TypeError "spinBoxTemplate"),
         mkHost (Some []) (AttachShadow :: Invoke "render" :: effects h) (fields h))
    end.
Proof.
  destruct h as [sr e f]; cbn; intros ->.
  unfold SpinBox004.render, spinBoxTemplate_content, bind, emit, this, attachShadow,
    appendChild, ret, throw.
  cbn. destruct (document_getElementById doc "spinBoxTemplate"); reflexivity.
Qed.

Lemma render004_same_view (doc : Document) (a b : SpinBox) :
  same_view a b -> same_view (snd (SpinBox004.render doc a)) (snd (render doc b)).
Proof.
  destruct a as [sr e f], b as [sr' e' f']. intros [H1 H2]. cbn in H1, H2. subst sr' f'.
  destruct sr as [r|].
  - rewrite (render004_present doc (mkHost (Some r) e f) r eq_refl),
      (render_present doc (mkHost (Some r) e' f) r eq_refl), !project_eq. cbn.
    destruct (getElementById r "input"); split; reflexivity.
  - rewrite render004_absent, render_absent by reflexivity.
    destruct (document_getElementById doc "spinBoxTemplate") as [c|]; [|split; reflexivity].
    rewrite !project_bind.
    unfold componentFirstRender, addEventListener, bind, emit, console_log, emit,
      this_shadowRoot, replace_root, throw.
    cbn.
    repeat match goal with
           | |- context [getElementById ?x ?i] => destruct (getElementById x i); cbn
           end.
    all: split; reflexivity.
Qed.

(** X12. Splitting the [render] of 004 into [renderHelper],
    [componentFirstRender] and the projection did not change what the
    element shows or holds: on every page, under every sequence of events,
    elements of 004 and of 006 that start with the same shadow tree and value
    end with the same shadow tree and value. *)
Theorem progression_004_shows_what_006_shows :
  forall (doc : Document) (events : list HostEvent) (a b : SpinBox),
    same_view a b ->
    same_view (SpinBox004.run doc events a) (SpinBox.run doc events b).
Proof.
  intros doc events a b H.
  apply (related_run doc (SpinBox004.render doc) same_view).
  - exact (fun _ _ x => x).
  - intros a0 b0 e1 e2. apply same_view_frame.
  - intros a0 b0 v [Hs _]. split; [exact Hs|reflexivity].
  - intros a0 b0 r t [Hs Hf] _. split; [reflexivity|exact Hf].
  - apply render004_same_view.
  - intros _ a0 b0 H0.
    unfold SpinBox004.connectedCallback, connectedCallback, bind, console_log, emit.
    cbv beta iota. apply render004_same_view, same_view_frame, H0.
  - exact H.
Qed.

Lemma progression_004_shows_what_006_shows_witness :
  same_view
    (SpinBox004.run index_html [AttributeChanged "value" None (Some "7"); Connected]
       constructor)
    (SpinBox.run index_html [AttributeChanged "value" None (Some "7"); Connected]
       constructor).
Proof.
  apply progression_004_shows_what_006_shows. split; reflexivity.
Defined.

Lemma render003_eq (h : SpinBox) :
  SpinBox003.render h = project (mkHost (shadowRoot h) (Invoke "render" :: effects h) (fields h)).
Proof. reflexivity. Qed.

Lemma render003_same_view (doc : Document) (a b : SpinBox) :
  same_view a b /\ shadowRoot a <> None ->
  same_view (snd (SpinBox003.render a)) (snd (render doc b))
  /\ shadowRoot (snd (SpinBox003.render a)) <> None.
Proof.
  destruct a as [sr e f], b as [sr' e' f']. intros [[H1 H2] H3]. cbn in H1, H2, H3.
  subst sr' f'. destruct sr as [r|]; [|congruence].
  rewrite render003_eq, (render_present doc (mkHost (Some r) e' f) r eq_refl),
    !project_eq.
  cbn. destruct (getElementById r "input"); cbn; repeat split; congruence.
Qed.

Lemma connectedCallback003_absent (doc : Document) (h : SpinBox) :
  shadowRoot h = None ->
  same_view (snd (SpinBox003.connectedCallback doc h)) (snd (connectedCallback doc h))
  /\ shadowRoot (snd (SpinBox003.connectedCallback doc h)) <> None.
Proof.
  destruct h as [sr e f]; cbn [shadowRoot]; intros ->.
  unfold connectedCallback, bind at 1, console_log, emit. cbv beta iota.
  rewrite render_absent by reflexivity.
  unfold SpinBox003.connectedCallback, spinBoxTemplate_content, bind at 1 2 3,
    console_log, emit, attachShadow.
  cbn [shadowRoot effects fields].
  destruct (document_getElementById doc "spinBoxTemplate") as [c|];
    [|cbn; repeat split; discriminate].
  unfold ret, bind at 1, appendChild. cbn [shadowRoot effects fields app].
  rewrite project_bind.
  unfold SpinBox003.render, project, write_value, get_value,
    componentFirstRender, addEventListener, bind, emit, console_log, emit,
    this_shadowRoot, replace_root, throw.
  cbn.
  repeat match goal with
         | |- context [getElementById ?x ?i] => destruct (getElementById x i); cbn
         end.
  all: repeat split; discriminate.
Qed.

(** X13. When the element is attached first and once only, 003 shows and
    holds what 006 does: on every page, for an element without a shadow root,
    attachment followed by any events other than a further attachment leaves
    elements of the two versions with the same shadow tree and value. *)
Theorem progression_003_attached_once :
  forall (doc : Document) (events : list HostEvent) (h : SpinBox),
    shadowRoot h = None ->
    ~ In Connected events ->
    same_view (SpinBox003.run doc (Connected :: events) h)
              (SpinBox.run doc (Connected :: events) h).
Proof.
  intros doc events h Hr Hin.
  destruct (connectedCallback003_absent doc h Hr) as [Hv Hp].
  unfold SpinBox003.run, run_of, run. cbn [fold_left].
  refine (proj1 (related_run doc SpinBox003.render
                   (fun a b => same_view a b /\ shadowRoot a <> None)
                   _ _ _ _ _ (SpinBox003.connectedCallback doc) events _ _ _ _)).
  - intros a b [H _]. exact H.
  - intros a b e1 e2 H. exact H.
  - intros a b v [[Hs _] Hn]. split; [split; [exact Hs|reflexivity]|exact Hn].
  - intros a b r t [[Hs Hf] _] _. split; [split; [reflexivity|exact Hf]|discriminate].
  - intros a b H. apply render003_same_view, H.
  - intros Hc. contradiction.
  - unfold step_of, step, host_call.
    destruct (SpinBox003.connectedCallback doc h) as [[x|e] [sa ea fa]],
             (connectedCallback doc h) as [[y|e'] [sb eb fb]];
      cbn in *; split; assumption.
Qed.

Lemma progression_003_attached_once_witness :
  same_view
    (SpinBox003.run index_html [Connected; MouseDown "upButton"; TextEntered "x"] constructor)
    (SpinBox.run index_html [Connected; MouseDown "upButton"; TextEntered "x"] constructor).
Proof.
  apply (progression_003_attached_once index_html
           [MouseDown "upButton"; TextEntered "x"] constructor).
  - reflexivity.
  - intros [H|[H|[]]]; discriminate H.
Defined.



(** X15. Attaching an element that already has its shadow tree (it was
    moved in the page): in 003 [connectedCallback] throws the
    [NotSupportedError] of a second [attachShadow] and does nothing else
    than write its line to the console; in 004 and 006 it never throws that
    error, creates no subtree and renders once. *)
Theorem attached_again :
  forall (doc : Document) (h : SpinBox) (r : Fragment),
    shadowRoot h = Some r ->
    SpinBox003.connectedCallback doc h
    = (Throw NotSupportedError,
       mkHost (Some r) (Log "SpinBox added to page: connectedCallback" :: effects h)
         (fields h))
    /\ connectedCallback doc h
       = project
           (mkHost (Some r)
              (Invoke "render" :: Log "SpinBox added to page: connectedCallback" :: effects h)
              (fields h))
    /\ SpinBox004.connectedCallback doc h = connectedCallback doc h
    /\ fst (connectedCallback doc h) <> Throw NotSupportedError
    /\ subtrees_created (snd (connectedCallback doc h)) = subtrees_created h
    /\ renders (snd (connectedCallback doc h)) = S (renders h).
Proof.
  intros doc h r Hr. destruct h as [sr e f]. cbn in Hr. subst sr.
  split; [reflexivity|].
  assert (E6 : connectedCallback doc (mkHost (Some r) e f)
               = project
                   (mkHost (Some r)
                      (Invoke "render" :: Log "SpinBox added to page: connectedCallback" :: e)
                      f)) by reflexivity.
  split; [exact E6|]. split; [reflexivity|].
  rewrite E6, project_eq. cbn.
  destruct (getElementById r "input"); cbn; repeat split; discriminate.
Qed.

Lemma attached_again_witness :
  renders (snd (connectedCallback index_html (run index_html [Connected] constructor)))
  = S (renders (run index_html [Connected] constructor)).
Proof.
  apply (attached_again index_html (run index_html [Connected] constructor) attached_tree).
  reflexivity.
Defined.

(** ** What a successful render guarantees *)



(** X17. On a page that supplies the template, once the element has been
    rendered, whatever has happened to it since, each of the three elements
    carries the one listener [componentFirstRender] gave it and no other:
    listeners are neither lost nor registered twice. *)
Theorem each_listener_registered_once :
  forall (doc : Document) (events : list HostEvent),
    supplies_template doc = true ->
    shadowRoot (run doc events constructor) <> None ->
    listeners_of "input" (run doc events constructor) = [("input", input_listener)]
    /\ listeners_of "upButton" (run doc events constructor)
       = [("mousedown", upButton_listener)]
    /\ listeners_of "downButton" (run doc events constructor)
       = [("mousedown", downButton_listener)].
Proof.
  intros doc events Hdoc Hroot.
  pose proof (wired_reachable doc events Hdoc) as Hw. unfold wired in Hw.
  rewrite !listeners_of_at.
  destruct (shadowRoot (run doc events constructor)) as [r|]; [|congruence].
  destruct Hw as (H1 & H2 & H3). rewrite H1, H2, H3. repeat split.
Qed.

Lemma each_listener_registered_once_witness :
  listeners_of "upButton"
    (run index_html [Connected; CallRender; Disconnected; Connected; MouseDown "upButton"]
       constructor)
  = [("mousedown", upButton_listener)].
Proof.
  apply (each_listener_registered_once index_html
           [Connected; CallRender; Disconnected; Connected; MouseDown "upButton"]).
  - reflexivity.
  - discriminate.
Defined.
